(** * booksracpy/analyze_books.py: price normalisation and aggregation

    A shallow embedding of [normalize_price], [count_books_in_category],
    [average_price_all], [average_price_in_category] and
    [count_books_in_price_range], together with the parts of the Python
    runtime they call ([str.strip], [str.lower], [str.replace], [float],
    [json.loads], [or], indexing, [sum]).

    - Python [str] is a list of Unicode code points ([Z]).
    - Python [float] is IEEE binary64, taken from the Standard Library's
      [SpecFloat] at precision 53 and maximal exponent 1024.
    - Python [int] is [Z].
    - A record ([Dict[str, Any]]) is a [gmap] from strings to values.
    - A call either returns or raises: [outcome].
    - The runtime is CPython 3.11 with its defaults: the tables of
      [str.lower] and of the decimal digits are those of Unicode 14.0. *)

From Stdlib Require Import ZArith List Bool Lia.
From Stdlib Require Import Floats.SpecFloat.
From stdpp Require Import gmap list strings.

Local Open Scope Z_scope.
Set Warnings "-register-all".

(** ** Exceptions and the result of a call *)

Inductive exn :=
  | ValueError        (* also json.JSONDecodeError, its subclass *)
  | OverflowError
  | IndexError
  | KeyError
  | TypeError
  | ZeroDivisionError
  | RecursionError.

Inductive outcome (A : Type) :=
  | Ret (a : A)
  | Raise (e : exn).
Arguments Ret {A} a.
Arguments Raise {A} e.

Definition bind {A B} (m : outcome A) (k : A -> outcome B) : outcome B :=
  match m with
  | Ret a => k a
  | Raise e => Raise e
  end.

(** [try: m  except Exception: h] *)
Definition try_except {A} (m : outcome A) (h : outcome A) : outcome A :=
  match m with
  | Ret a => Ret a
  | Raise _ => h
  end.

Definition returns {A} (m : outcome A) : Prop := exists a, m = Ret a.

Declare Scope py_scope.
Delimit Scope py_scope with py.
Notation "'let!' x ':=' m 'in' k" := (bind m (fun x => k))
  (at level 10, x name, m at level 100, k at level 200) : py_scope.
Local Open Scope py_scope.

(** ** Strings *)

Abbreviation pystr := (list Z).

(** A string literal of the development, decoded from UTF-8 into code
    points (one to four bytes per code point). *)
Fixpoint utf8_decode (bs : list Z) : list Z :=
  match bs with
  | [] => []
  | b0 :: r0 =>
      if b0 <? 192 then b0 :: utf8_decode r0
      else
        match r0 with
        | [] => [b0]
        | b1 :: r1 =>
            if b0 <? 224 then
              ((b0 - 192) * 64 + (b1 - 128)) :: utf8_decode r1
            else
              match r1 with
              | [] => [b0; b1]
              | b2 :: r2 =>
                  if b0 <? 240 then
                    ((b0 - 224) * 4096 + (b1 - 128) * 64 + (b2 - 128))
                      :: utf8_decode r2
                  else
                    match r2 with
                    | [] => [b0; b1; b2]
                    | b3 :: r3 =>
                        ((b0 - 240) * 262144 + (b1 - 128) * 4096
                         + (b2 - 128) * 64 + (b3 - 128)) :: utf8_decode r3
                    end
              end
        end
  end.

Definition str (s : String.string) : pystr :=
  utf8_decode
    (map (fun a => Z.of_N (Ascii.N_of_ascii a)) (String.list_ascii_of_string s)).
Arguments str s%_string.

(** The double quote, which the literals above cannot hold. *)
Definition dquote : Z := 34.

Fixpoint str_eqb (a b : pystr) : bool :=
  match a, b with
  | [], [] => true
  | x :: a', y :: b' => (x =? y) && str_eqb a' b'
  | _, _ => false
  end.

(** [Py_UNICODE_ISSPACE]: the characters [str.strip()] removes. *)
Definition is_space (c : Z) : bool :=
  ((9 <=? c) && (c <=? 13)) || ((28 <=? c) && (c <=? 32))
  || (c =? 133) || (c =? 160) || (c =? 5760)
  || ((8192 <=? c) && (c <=? 8202))
  || (c =? 8232) || (c =? 8233) || (c =? 8239) || (c =? 8287) || (c =? 12288).

Fixpoint lstrip (s : pystr) : pystr :=
  match s with
  | c :: r => if is_space c then lstrip r else s
  | [] => []
  end.

Definition rstrip (s : pystr) : pystr := rev (lstrip (rev s)).

(** [s.strip()] *)
Definition strip (s : pystr) : pystr := rstrip (lstrip s).

(** [s.replace(c, '')] for a one-character [c]. *)
Definition remove_char (c : Z) (s : pystr) : pystr :=
  filter (fun x => x ≠ c) s.

(** [s.startswith(c)] and [s.endswith(c)] for a one-character [c]. *)
Definition startswith (c : Z) (s : pystr) : bool :=
  match s with
  | x :: _ => x =? c
  | [] => false
  end.

Definition endswith (c : Z) (s : pystr) : bool := startswith c (rev s).

(** [s[1:-1]] *)
Definition slice_1_m1 (s : pystr) : pystr := removelast (tl s).

(** *** [str.lower()]

    The tables are those of Unicode 14.0, which CPython 3.11 has. *)

(** The simple lowercase mappings: the code points [first],
    [first + step], ..., [last] lower to themselves plus [shift]. *)
Definition lower_table : list (Z * Z * Z * Z) :=
  [(65, 90, 1, 32); (192, 214, 1, 32); (216, 222, 1, 32); (256, 302, 2, 1);
   (306, 310, 2, 1); (313, 327, 2, 1); (330, 374, 2, 1); (376, 376, 1, -121);
   (377, 381, 2, 1); (385, 385, 1, 210); (386, 388, 2, 1); (390, 390, 1, 206);
   (391, 391, 1, 1); (393, 394, 1, 205); (395, 395, 1, 1); (398, 398, 1, 79);
   (399, 399, 1, 202); (400, 400, 1, 203); (401, 401, 1, 1);
   (403, 403, 1, 205); (404, 404, 1, 207); (406, 406, 1, 211);
   (407, 407, 1, 209); (408, 408, 1, 1); (412, 412, 1, 211);
   (413, 413, 1, 213); (415, 415, 1, 214); (416, 420, 2, 1);
   (422, 422, 1, 218); (423, 423, 1, 1); (425, 425, 1, 218); (428, 428, 1, 1);
   (430, 430, 1, 218); (431, 431, 1, 1); (433, 434, 1, 217); (435, 437, 2, 1);
   (439, 439, 1, 219); (440, 440, 1, 1); (444, 444, 1, 1); (452, 452, 1, 2);
   (453, 453, 1, 1); (455, 455, 1, 2); (456, 456, 1, 1); (458, 458, 1, 2);
   (459, 475, 2, 1); (478, 494, 2, 1); (497, 497, 1, 2); (498, 500, 2, 1);
   (502, 502, 1, -97); (503, 503, 1, -56); (504, 542, 2, 1);
   (544, 544, 1, -130); (546, 562, 2, 1); (570, 570, 1, 10795);
   (571, 571, 1, 1); (573, 573, 1, -163); (574, 574, 1, 10792);
   (577, 577, 1, 1); (579, 579, 1, -195); (580, 580, 1, 69);
   (581, 581, 1, 71); (582, 590, 2, 1); (880, 882, 2, 1); (886, 886, 1, 1);
   (895, 895, 1, 116); (902, 902, 1, 38); (904, 906, 1, 37);
   (908, 908, 1, 64); (910, 911, 1, 63); (913, 929, 1, 32); (932, 939, 1, 32);
   (975, 975, 1, 8); (984, 1006, 2, 1); (1012, 1012, 1, -60);
   (1015, 1015, 1, 1); (1017, 1017, 1, -7); (1018, 1018, 1, 1);
   (1021, 1023, 1, -130); (1024, 1039, 1, 80); (1040, 1071, 1, 32);
   (1120, 1152, 2, 1); (1162, 1214, 2, 1); (1216, 1216, 1, 15);
   (1217, 1229, 2, 1); (1232, 1326, 2, 1); (1329, 1366, 1, 48);
   (4256, 4293, 1, 7264); (4295, 4295, 1, 7264); (4301, 4301, 1, 7264);
   (5024, 5103, 1, 38864); (5104, 5109, 1, 8); (7312, 7354, 1, -3008);
   (7357, 7359, 1, -3008); (7680, 7828, 2, 1); (7838, 7838, 1, -7615);
   (7840, 7934, 2, 1); (7944, 7951, 1, -8); (7960, 7965, 1, -8);
   (7976, 7983, 1, -8); (7992, 7999, 1, -8); (8008, 8013, 1, -8);
   (8025, 8031, 2, -8); (8040, 8047, 1, -8); (8072, 8079, 1, -8);
   (8088, 8095, 1, -8); (8104, 8111, 1, -8); (8120, 8121, 1, -8);
   (8122, 8123, 1, -74); (8124, 8124, 1, -9); (8136, 8139, 1, -86);
   (8140, 8140, 1, -9); (8152, 8153, 1, -8); (8154, 8155, 1, -100);
   (8168, 8169, 1, -8); (8170, 8171, 1, -112); (8172, 8172, 1, -7);
   (8184, 8185, 1, -128); (8186, 8187, 1, -126); (8188, 8188, 1, -9);
   (8486, 8486, 1, -7517); (8490, 8490, 1, -8383); (8491, 8491, 1, -8262);
   (8498, 8498, 1, 28); (8544, 8559, 1, 16); (8579, 8579, 1, 1);
   (9398, 9423, 1, 26); (11264, 11311, 1, 48); (11360, 11360, 1, 1);
   (11362, 11362, 1, -10743); (11363, 11363, 1, -3814);
   (11364, 11364, 1, -10727); (11367, 11371, 2, 1); (11373, 11373, 1, -10780);
   (11374, 11374, 1, -10749); (11375, 11375, 1, -10783);
   (11376, 11376, 1, -10782); (11378, 11378, 1, 1); (11381, 11381, 1, 1);
   (11390, 11391, 1, -10815); (11392, 11490, 2, 1); (11499, 11501, 2, 1);
   (11506, 11506, 1, 1); (42560, 42604, 2, 1); (42624, 42650, 2, 1);
   (42786, 42798, 2, 1); (42802, 42862, 2, 1); (42873, 42875, 2, 1);
   (42877, 42877, 1, -35332); (42878, 42886, 2, 1); (42891, 42891, 1, 1);
   (42893, 42893, 1, -42280); (42896, 42898, 2, 1); (42902, 42920, 2, 1);
   (42922, 42922, 1, -42308); (42923, 42923, 1, -42319);
   (42924, 42924, 1, -42315); (42925, 42925, 1, -42305);
   (42926, 42926, 1, -42308); (42928, 42928, 1, -42258);
   (42929, 42929, 1, -42282); (42930, 42930, 1, -42261);
   (42931, 42931, 1, 928); (42932, 42946, 2, 1); (42948, 42948, 1, -48);
   (42949, 42949, 1, -42307); (42950, 42950, 1, -35384); (42951, 42953, 2, 1);
   (42960, 42960, 1, 1); (42966, 42968, 2, 1); (42997, 42997, 1, 1);
   (65313, 65338, 1, 32); (66560, 66599, 1, 40); (66736, 66771, 1, 40);
   (66928, 66938, 1, 39); (66940, 66954, 1, 39); (66956, 66962, 1, 39);
   (66964, 66965, 1, 39); (68736, 68786, 1, 64); (71840, 71871, 1, 32);
   (93760, 93791, 1, 32); (125184, 125217, 1, 34)].

(** [_PyUnicode_ToLowerFull]: U+0130 lowers to two code points, a code
    point of the table to one, any other to itself. *)
Definition lower_cp (c : Z) : pystr :=
  if c =? 304 then [105; 775]
  else
    match List.find (fun '(first, last, step, _) =>
                       (first <=? c) && (c <=? last)
                       && ((c - first) mod step =? 0)) lower_table with
    | Some (_, _, _, shift) => [c + shift]
    | None => [c]
    end.

Definition in_ranges (ranges : list (Z * Z)) (c : Z) : bool :=
  existsb (fun '(first, last) => (first <=? c) && (c <=? last)) ranges.

(** The code points with the property Case_Ignorable. *)
Definition case_ignorable_ranges : list (Z * Z) :=
  [(39, 39); (46, 46); (58, 58); (94, 94); (96, 96); (168, 168); (173, 173);
   (175, 175); (180, 180); (183, 184); (688, 879); (884, 885); (890, 890);
   (900, 901); (903, 903); (1155, 1161); (1369, 1369); (1375, 1375);
   (1425, 1469); (1471, 1471); (1473, 1474); (1476, 1477); (1479, 1479);
   (1524, 1524); (1536, 1541); (1552, 1562); (1564, 1564); (1600, 1600);
   (1611, 1631); (1648, 1648); (1750, 1757); (1759, 1768); (1770, 1773);
   (1807, 1807); (1809, 1809); (1840, 1866); (1958, 1968); (2027, 2037);
   (2042, 2042); (2045, 2045); (2070, 2093); (2137, 2139); (2184, 2184);
   (2192, 2193); (2200, 2207); (2249, 2306); (2362, 2362); (2364, 2364);
   (2369, 2376); (2381, 2381); (2385, 2391); (2402, 2403); (2417, 2417);
   (2433, 2433); (2492, 2492); (2497, 2500); (2509, 2509); (2530, 2531);
   (2558, 2558); (2561, 2562); (2620, 2620); (2625, 2626); (2631, 2632);
   (2635, 2637); (2641, 2641); (2672, 2673); (2677, 2677); (2689, 2690);
   (2748, 2748); (2753, 2757); (2759, 2760); (2765, 2765); (2786, 2787);
   (2810, 2815); (2817, 2817); (2876, 2876); (2879, 2879); (2881, 2884);
   (2893, 2893); (2901, 2902); (2914, 2915); (2946, 2946); (3008, 3008);
   (3021, 3021); (3072, 3072); (3076, 3076); (3132, 3132); (3134, 3136);
   (3142, 3144); (3146, 3149); (3157, 3158); (3170, 3171); (3201, 3201);
   (3260, 3260); (3263, 3263); (3270, 3270); (3276, 3277); (3298, 3299);
   (3328, 3329); (3387, 3388); (3393, 3396); (3405, 3405); (3426, 3427);
   (3457, 3457); (3530, 3530); (3538, 3540); (3542, 3542); (3633, 3633);
   (3636, 3642); (3654, 3662); (3761, 3761); (3764, 3772); (3782, 3782);
   (3784, 3789); (3864, 3865); (3893, 3893); (3895, 3895); (3897, 3897);
   (3953, 3966); (3968, 3972); (3974, 3975); (3981, 3991); (3993, 4028);
   (4038, 4038); (4141, 4144); (4146, 4151); (4153, 4154); (4157, 4158);
   (4184, 4185); (4190, 4192); (4209, 4212); (4226, 4226); (4229, 4230);
   (4237, 4237); (4253, 4253); (4348, 4348); (4957, 4959); (5906, 5908);
   (5938, 5939); (5970, 5971); (6002, 6003); (6068, 6069); (6071, 6077);
   (6086, 6086); (6089, 6099); (6103, 6103); (6109, 6109); (6155, 6159);
   (6211, 6211); (6277, 6278); (6313, 6313); (6432, 6434); (6439, 6440);
   (6450, 6450); (6457, 6459); (6679, 6680); (6683, 6683); (6742, 6742);
   (6744, 6750); (6752, 6752); (6754, 6754); (6757, 6764); (6771, 6780);
   (6783, 6783); (6823, 6823); (6832, 6862); (6912, 6915); (6964, 6964);
   (6966, 6970); (6972, 6972); (6978, 6978); (7019, 7027); (7040, 7041);
   (7074, 7077); (7080, 7081); (7083, 7085); (7142, 7142); (7144, 7145);
   (7149, 7149); (7151, 7153); (7212, 7219); (7222, 7223); (7288, 7293);
   (7376, 7378); (7380, 7392); (7394, 7400); (7405, 7405); (7412, 7412);
   (7416, 7417); (7468, 7530); (7544, 7544); (7579, 7679); (8125, 8125);
   (8127, 8129); (8141, 8143); (8157, 8159); (8173, 8175); (8189, 8190);
   (8203, 8207); (8216, 8217); (8228, 8228); (8231, 8231); (8234, 8238);
   (8288, 8292); (8294, 8303); (8305, 8305); (8319, 8319); (8336, 8348);
   (8400, 8432); (11388, 11389); (11503, 11505); (11631, 11631);
   (11647, 11647); (11744, 11775); (11823, 11823); (12293, 12293);
   (12330, 12333); (12337, 12341); (12347, 12347); (12441, 12446);
   (12540, 12542); (40981, 40981); (42232, 42237); (42508, 42508);
   (42607, 42610); (42612, 42621); (42623, 42623); (42652, 42655);
   (42736, 42737); (42752, 42785); (42864, 42864); (42888, 42890);
   (42994, 42996); (43000, 43001); (43010, 43010); (43014, 43014);
   (43019, 43019); (43045, 43046); (43052, 43052); (43204, 43205);
   (43232, 43249); (43263, 43263); (43302, 43309); (43335, 43345);
   (43392, 43394); (43443, 43443); (43446, 43449); (43452, 43453);
   (43471, 43471); (43493, 43494); (43561, 43566); (43569, 43570);
   (43573, 43574); (43587, 43587); (43596, 43596); (43632, 43632);
   (43644, 43644); (43696, 43696); (43698, 43700); (43703, 43704);
   (43710, 43711); (43713, 43713); (43741, 43741); (43756, 43757);
   (43763, 43764); (43766, 43766); (43867, 43871); (43881, 43883);
   (44005, 44005); (44008, 44008); (44013, 44013); (64286, 64286);
   (64434, 64450); (65024, 65039); (65043, 65043); (65056, 65071);
   (65106, 65106); (65109, 65109); (65279, 65279); (65287, 65287);
   (65294, 65294); (65306, 65306); (65342, 65342); (65344, 65344);
   (65392, 65392); (65438, 65439); (65507, 65507); (65529, 65531);
   (66045, 66045); (66272, 66272); (66422, 66426); (67456, 67461);
   (67463, 67504); (67506, 67514); (68097, 68099); (68101, 68102);
   (68108, 68111); (68152, 68154); (68159, 68159); (68325, 68326);
   (68900, 68903); (69291, 69292); (69446, 69456); (69506, 69509);
   (69633, 69633); (69688, 69702); (69744, 69744); (69747, 69748);
   (69759, 69761); (69811, 69814); (69817, 69818); (69821, 69821);
   (69826, 69826); (69837, 69837); (69888, 69890); (69927, 69931);
   (69933, 69940); (70003, 70003); (70016, 70017); (70070, 70078);
   (70089, 70092); (70095, 70095); (70191, 70193); (70196, 70196);
   (70198, 70199); (70206, 70206); (70367, 70367); (70371, 70378);
   (70400, 70401); (70459, 70460); (70464, 70464); (70502, 70508);
   (70512, 70516); (70712, 70719); (70722, 70724); (70726, 70726);
   (70750, 70750); (70835, 70840); (70842, 70842); (70847, 70848);
   (70850, 70851); (71090, 71093); (71100, 71101); (71103, 71104);
   (71132, 71133); (71219, 71226); (71229, 71229); (71231, 71232);
   (71339, 71339); (71341, 71341); (71344, 71349); (71351, 71351);
   (71453, 71455); (71458, 71461); (71463, 71467); (71727, 71735);
   (71737, 71738); (71995, 71996); (71998, 71998); (72003, 72003);
   (72148, 72151); (72154, 72155); (72160, 72160); (72193, 72202);
   (72243, 72248); (72251, 72254); (72263, 72263); (72273, 72278);
   (72281, 72283); (72330, 72342); (72344, 72345); (72752, 72758);
   (72760, 72765); (72767, 72767); (72850, 72871); (72874, 72880);
   (72882, 72883); (72885, 72886); (73009, 73014); (73018, 73018);
   (73020, 73021); (73023, 73029); (73031, 73031); (73104, 73105);
   (73109, 73109); (73111, 73111); (73459, 73460); (78896, 78904);
   (92912, 92916); (92976, 92982); (92992, 92995); (94031, 94031);
   (94095, 94111); (94176, 94177); (94179, 94180); (110576, 110579);
   (110581, 110587); (110589, 110590); (113821, 113822); (113824, 113827);
   (118528, 118573); (118576, 118598); (119143, 119145); (119155, 119170);
   (119173, 119179); (119210, 119213); (119362, 119364); (121344, 121398);
   (121403, 121452); (121461, 121461); (121476, 121476); (121499, 121503);
   (121505, 121519); (122880, 122886); (122888, 122904); (122907, 122913);
   (122915, 122916); (122918, 122922); (123184, 123197); (123566, 123566);
   (123628, 123631); (125136, 125142); (125252, 125259); (127995, 127999);
   (917505, 917505); (917536, 917631); (917760, 917999)].

(** The code points with the property Cased. *)
Definition cased_ranges : list (Z * Z) :=
  [(65, 90); (97, 122); (170, 170); (181, 181); (186, 186); (192, 214);
   (216, 246); (248, 442); (444, 447); (452, 659); (661, 696); (704, 705);
   (736, 740); (837, 837); (880, 883); (886, 887); (890, 893); (895, 895);
   (902, 902); (904, 906); (908, 908); (910, 929); (931, 1013); (1015, 1153);
   (1162, 1327); (1329, 1366); (1376, 1416); (4256, 4293); (4295, 4295);
   (4301, 4301); (4304, 4346); (4349, 4351); (5024, 5109); (5112, 5117);
   (7296, 7304); (7312, 7354); (7357, 7359); (7424, 7615); (7680, 7957);
   (7960, 7965); (7968, 8005); (8008, 8013); (8016, 8023); (8025, 8025);
   (8027, 8027); (8029, 8029); (8031, 8061); (8064, 8116); (8118, 8124);
   (8126, 8126); (8130, 8132); (8134, 8140); (8144, 8147); (8150, 8155);
   (8160, 8172); (8178, 8180); (8182, 8188); (8305, 8305); (8319, 8319);
   (8336, 8348); (8450, 8450); (8455, 8455); (8458, 8467); (8469, 8469);
   (8473, 8477); (8484, 8484); (8486, 8486); (8488, 8488); (8490, 8493);
   (8495, 8500); (8505, 8505); (8508, 8511); (8517, 8521); (8526, 8526);
   (8544, 8575); (8579, 8580); (9398, 9449); (11264, 11492); (11499, 11502);
   (11506, 11507); (11520, 11557); (11559, 11559); (11565, 11565);
   (42560, 42605); (42624, 42653); (42786, 42887); (42891, 42894);
   (42896, 42954); (42960, 42961); (42963, 42963); (42965, 42969);
   (42997, 42998); (43000, 43002); (43824, 43866); (43868, 43880);
   (43888, 43967); (64256, 64262); (64275, 64279); (65313, 65338);
   (65345, 65370); (66560, 66639); (66736, 66771); (66776, 66811);
   (66928, 66938); (66940, 66954); (66956, 66962); (66964, 66965);
   (66967, 66977); (66979, 66993); (66995, 67001); (67003, 67004);
   (67456, 67456); (67459, 67461); (67463, 67504); (67506, 67514);
   (68736, 68786); (68800, 68850); (71840, 71903); (93760, 93823);
   (119808, 119892); (119894, 119964); (119966, 119967); (119970, 119970);
   (119973, 119974); (119977, 119980); (119982, 119993); (119995, 119995);
   (119997, 120003); (120005, 120069); (120071, 120074); (120077, 120084);
   (120086, 120092); (120094, 120121); (120123, 120126); (120128, 120132);
   (120134, 120134); (120138, 120144); (120146, 120485); (120488, 120512);
   (120514, 120538); (120540, 120570); (120572, 120596); (120598, 120628);
   (120630, 120654); (120656, 120686); (120688, 120712); (120714, 120744);
   (120746, 120770); (120772, 120779); (122624, 122633); (122635, 122654);
   (125184, 125251); (127280, 127305); (127312, 127337); (127344, 127369)].

(** [_PyUnicode_IsCaseIgnorable] and [_PyUnicode_IsCased] *)
Definition is_case_ignorable (c : Z) : bool := in_ranges case_ignorable_ranges c.
Definition is_cased (c : Z) : bool := in_ranges cased_ranges c.

Fixpoint skip_case_ignorable (s : pystr) : pystr :=
  match s with
  | c :: r => if is_case_ignorable c then skip_case_ignorable r else s
  | [] => []
  end.

(** [handle_capital_sigma]: U+03A3 lowers to the final sigma U+03C2 when,
    case-ignorable code points apart, a cased one comes before it and none
    comes after it, and to U+03C3 otherwise.  [before] holds the code
    points before it, the nearest first. *)
Definition lower_sigma (before after : pystr) : Z :=
  let final :=
    match skip_case_ignorable before with
    | c :: _ =>
        is_cased c
        && match skip_case_ignorable after with
           | [] => true
           | c' :: _ => negb (is_cased c')
           end
    | [] => false
    end in
  if final then 962 else 963.

(** [do_lower] from the code points [before] on, the nearest first. *)
Fixpoint lower_from (before s : pystr) : pystr :=
  match s with
  | [] => []
  | c :: r =>
      (if c =? 931 then [lower_sigma before r] else lower_cp c)
      ++ lower_from (c :: before) r
  end.

(** [s.lower()] *)
Definition lower (s : pystr) : pystr := lower_from [] s.

(** ** Floats *)

Abbreviation float := spec_float.

Definition fadd : float -> float -> float := SFadd 53 1024.
Definition fdiv : float -> float -> float := SFdiv 53 1024.

(** [x <= y] and [x > y]; both are false when an operand is a NaN. *)
Definition fleb : float -> float -> bool := SFleb.
Definition fgtb (x y : float) : bool :=
  match SFcompare x y with
  | Some Gt => true
  | _ => false
  end.

Definition fzero : float := S754_zero false.
Definition fone : float := S754_finite false 4503599627370496 (-52).

Definition is_fzero (x : float) : bool :=
  match x with
  | S754_zero _ => true
  | _ => false
  end.

(** The integer [n] rounded to the nearest binary64, ties to even. *)
Definition float_of_Z (n : Z) : float := binary_normalize 53 1024 n 0 false.

(** The least magnitude that rounds up to 2^1024. *)
Definition float_overflow_threshold : Z := 2 ^ 1024 - 2 ^ 970.

(** [float(n)] for an [int]: "OverflowError: int too large to convert to
    float" when the rounded value is not finite. *)
Definition float_of_int (n : Z) : outcome float :=
  if float_overflow_threshold <=? Z.abs n then Raise OverflowError
  else Ret (float_of_Z n).

(** The decimal [(-1)^neg * m * 10^e] rounded to the nearest binary64.  Out
    of range it is an infinity, as in Python, where [float('1e999')] is
    [inf]. *)
Definition float_of_decimal (neg : bool) (m e : Z) : float :=
  match m with
  | Zpos p =>
      SFdiv 53 1024
        (S754_finite neg (Z.to_pos (Zpos p * 10 ^ Z.max e 0)) 0)
        (S754_finite false (Z.to_pos (10 ^ Z.max (- e) 0)) 0)
  | _ => S754_zero neg
  end.

(** *** [float(s)] for a [str] *)

Definition is_digit (c : Z) : bool := (48 <=? c) && (c <=? 57).

(** The zero of each block of decimal digits (category Nd) of Unicode
    14.0. *)
Definition decimal_zeros : list Z :=
  [48; 1632; 1776; 1984; 2406; 2534; 2662; 2790; 2918; 3046; 3174; 3302;
   3430; 3558; 3664; 3792; 3872; 4160; 4240; 6112; 6160; 6470; 6608; 6784;
   6800; 6992; 7088; 7232; 7248; 42528; 43216; 43264; 43472; 43504; 43600;
   44016; 65296; 66720; 68912; 69734; 69872; 69942; 70096; 70384; 70736;
   70864; 71248; 71360; 71472; 71904; 72016; 72784; 73040; 73120; 92768;
   92864; 93008; 120782; 120792; 120802; 120812; 120822; 123200; 123632;
   125264; 130032].

(** [Py_UNICODE_TODECIMAL] *)
Definition to_decimal (c : Z) : option Z :=
  match List.find (fun z => (z <=? c) && (c <=? z + 9)) decimal_zeros with
  | Some z => Some (c - z)
  | None => None
  end.

(** [_PyUnicode_TransformDecimalAndSpaceToASCII], one code point: spaces
    become [' '], decimal digits their ASCII digit, anything else ['?']. *)
Definition transform_cp (c : Z) : Z :=
  if c <? 127 then c
  else if is_space c then 32
  else match to_decimal c with
       | Some d => 48 + d
       | None => 63
       end.

(** [_Py_string_to_number_with_underscores]: an underscore is allowed only
    between two digits; the result has them removed. *)
Fixpoint drop_underscores (prev : Z) (s : pystr) : option pystr :=
  match s with
  | [] => if prev =? 95 then None else Some []
  | c :: r =>
      if c =? 95 then
        if is_digit prev then drop_underscores c r else None
      else if (prev =? 95) && negb (is_digit c) then None
      else option_map (cons c) (drop_underscores c r)
  end.

(** [Py_ISSPACE] *)
Definition is_ascii_space (c : Z) : bool :=
  ((9 <=? c) && (c <=? 13)) || (c =? 32).

Fixpoint lstrip_ascii (s : pystr) : pystr :=
  match s with
  | c :: r => if is_ascii_space c then lstrip_ascii r else s
  | [] => []
  end.

Definition strip_ascii (s : pystr) : pystr :=
  rev (lstrip_ascii (rev (lstrip_ascii s))).

Fixpoint span_digits (s : pystr) : pystr * pystr :=
  match s with
  | c :: r =>
      if is_digit c then let '(ds, rest) := span_digits r in (c :: ds, rest)
      else ([], s)
  | [] => ([], [])
  end.

Definition digits_value (ds : pystr) : Z :=
  fold_left (fun a c => 10 * a + (c - 48)) ds 0.

Definition take_sign (s : pystr) : bool * pystr :=
  match s with
  | c :: r =>
      if c =? 45 then (true, r) else if c =? 43 then (false, r) else (false, s)
  | [] => (false, [])
  end.

Definition ascii_lower (s : pystr) : pystr :=
  map (fun c => if (65 <=? c) && (c <=? 90) then c + 32 else c) s.

(** [PyOS_string_to_double] on the whole of [s]:
    [[sign] (inf | infinity | nan | number [exponent])]. *)
Definition parse_float_ascii (s : pystr) : option float :=
  let '(neg, s1) := take_sign s in
  let w := ascii_lower s1 in
  if str_eqb w (str "inf") || str_eqb w (str "infinity") then
    Some (S754_infinity neg)
  else if str_eqb w (str "nan") then Some S754_nan
  else
    let '(ip, s2) := span_digits s1 in
    let '(fp, s3) :=
      match s2 with
      | c :: r => if c =? 46 then span_digits r else ([], s2)
      | [] => ([], [])
      end in
    let m := digits_value (ip ++ fp) in
    let scale := Z.of_nat (length fp) in
    match ip ++ fp with
    | [] => None
    | _ :: _ =>
        match s3 with
        | [] => Some (float_of_decimal neg m (- scale))
        | c :: r =>
            if (c =? 101) || (c =? 69) then
              let '(eneg, r1) := take_sign r in
              let '(ep, r2) := span_digits r1 in
              match ep, r2 with
              | _ :: _, [] =>
                  let x := digits_value ep in
                  Some (float_of_decimal neg m
                          ((if eneg then - x else x) - scale))
              | _, _ => None
              end
            else None
        end
    end.

(** [float(s)] *)
Definition float_of_str (s : pystr) : outcome float :=
  match drop_underscores 0 (map transform_cp s) with
  | Some u =>
      match parse_float_ascii (strip_ascii u) with
      | Some x => Ret x
      | None => Raise ValueError
      end
  | None => Raise ValueError
  end.

(** ** Values *)

Inductive pyval :=
  | VNone
  | VBool (b : bool)
  | VInt (n : Z)
  | VFloat (x : float)
  | VStr (s : pystr)
  | VList (l : list pyval)
  | VTuple (l : list pyval)
  | VDict (d : list (pystr * pyval)).

(** Truth value testing, as [or], [if] and [not] do it. *)
Definition truthy (v : pyval) : bool :=
  match v with
  | VNone => false
  | VBool b => b
  | VInt n => negb (n =? 0)
  | VFloat x => negb (is_fzero x)
  | VStr s => negb (Nat.eqb (length s) 0)
  | VList l | VTuple l => negb (Nat.eqb (length l) 0)
  | VDict d => negb (Nat.eqb (length d) 0)
  end.

(** [a or b] *)
Definition py_or (a b : pyval) : pyval := if truthy a then a else b.

(** [float(v)] *)
Definition py_float (v : pyval) : outcome float :=
  match v with
  | VBool b => Ret (if b then fone else fzero)
  | VInt n => float_of_int n
  | VFloat x => Ret x
  | VStr s => float_of_str s
  | _ => Raise TypeError
  end.

(** [v[0]] *)
Definition getitem0 (v : pyval) : outcome pyval :=
  match v with
  | VList (x :: _) | VTuple (x :: _) => Ret x
  | VList [] | VTuple [] => Raise IndexError
  | VStr (c :: _) => Ret (VStr [c])
  | VStr [] => Raise IndexError
  | VDict _ => Raise KeyError
  | _ => Raise TypeError
  end.

(** [d[k] = v] on a dictionary kept in insertion order. *)
Fixpoint dict_set (k : pystr) (v : pyval) (d : list (pystr * pyval))
  : list (pystr * pyval) :=
  match d with
  | [] => [(k, v)]
  | (k', v') :: d' =>
      if str_eqb k k' then (k', v) :: d' else (k', v') :: dict_set k v d'
  end.

(** [dict(pairs)] *)
Definition dict_of_pairs (pairs : list (pystr * pyval)) : list (pystr * pyval) :=
  fold_left (fun d kv => dict_set (fst kv) (snd kv) d) pairs [].

(** ** [json.loads] (json/decoder.py, json/scanner.py) *)

Module Json.

Definition is_ws (c : Z) : bool :=
  (c =? 32) || (c =? 9) || (c =? 10) || (c =? 13).

Fixpoint skip_ws (s : pystr) : pystr :=
  match s with
  | c :: r => if is_ws c then skip_ws r else s
  | [] => []
  end.

Definition hex_value (c : Z) : option Z :=
  if is_digit c then Some (c - 48)
  else if (97 <=? c) && (c <=? 102) then Some (c - 87)
  else if (65 <=? c) && (c <=? 70) then Some (c - 55)
  else None.

(** [_decode_uXXXX] *)
Definition hex4 (a b c d : Z) : option Z :=
  match hex_value a, hex_value b, hex_value c, hex_value d with
  | Some x, Some y, Some z, Some w => Some (((x * 16 + y) * 16 + z) * 16 + w)
  | _, _, _, _ => None
  end.

(** [BACKSLASH] *)
Definition unescape (c : Z) : option Z :=
  if (c =? 34) || (c =? 92) || (c =? 47) then Some c
  else if c =? 98 then Some 8
  else if c =? 102 then Some 12
  else if c =? 110 then Some 10
  else if c =? 114 then Some 13
  else if c =? 116 then Some 9
  else None.

(** [py_scanstring] in strict mode, from just after the opening quote:
    the decoded string and what follows the closing quote.  A high
    surrogate escape followed by a low surrogate escape is joined. *)
Fixpoint scanstring (s : pystr) : option (pystr * pystr) :=
  match s with
  | [] => None
  | c :: r =>
      if c =? 34 then Some ([], r)
      else if c =? 92 then
        match r with
        | [] => None
        | e :: r1 =>
            if e =? 117 then
              match r1 with
              | h1 :: h2 :: h3 :: h4 :: r2 =>
                  match hex4 h1 h2 h3 h4 with
                  | None => None
                  | Some uni =>
                      let single :=
                        option_map (fun '(t, rest) => (uni :: t, rest))
                                   (scanstring r2) in
                      if (55296 <=? uni) && (uni <=? 56319) then
                        match r2 with
                        | b :: u :: l1 :: l2 :: l3 :: l4 :: r3 =>
                            if (b =? 92) && (u =? 117) then
                              match hex4 l1 l2 l3 l4 with
                              | None => None
                              | Some uni2 =>
                                  if (56320 <=? uni2) && (uni2 <=? 57343) then
                                    option_map
                                      (fun '(t, rest) =>
                                         (65536 + (uni - 55296) * 1024
                                          + (uni2 - 56320) :: t, rest))
                                      (scanstring r3)
                                  else single
                              end
                            else single
                        | _ => single
                        end
                      else single
                  end
              | _ => None
              end
            else
              match unescape e with
              | Some x =>
                  option_map (fun '(t, rest) => (x :: t, rest)) (scanstring r1)
              | None => None
              end
        end
      else if c <=? 31 then None
      else option_map (fun '(t, rest) => (c :: t, rest)) (scanstring r)
  end.

(** [sys.get_int_max_str_digits()]: [int] of a string of more digits
    raises [ValueError]. *)
Definition int_max_str_digits : Z := 4300.

(** [NUMBER_RE]: an optional minus, then [0] or a digit string without a
    leading zero, then optionally a dot with digits, then optionally [e]
    or [E] with a signed digit string; [int] of the match, or [float] of
    it when it has a fraction or an exponent. *)
Definition match_number (s : pystr) : option (pyval * pystr) :=
  let '(neg, s1) :=
    match s with
    | c :: r => if c =? 45 then (true, r) else (false, s)
    | [] => (false, s)
    end in
  match s1 with
  | d :: r1 =>
      if is_digit d then
        let '(ip, s2) := if d =? 48 then ([d], r1) else span_digits s1 in
        let '(fp, s3) :=
          match s2 with
          | dot :: r2 =>
              if dot =? 46 then
                match span_digits r2 with
                | ([], _) => ([], s2)
                | (ds, rest) => (dot :: ds, rest)
                end
              else ([], s2)
          | [] => ([], s2)
          end in
        let '(ep, s4) :=
          match s3 with
          | e :: r3 =>
              if (e =? 101) || (e =? 69) then
                let '(sg, r4) :=
                  match r3 with
                  | c :: r' =>
                      if (c =? 45) || (c =? 43) then ([c], r') else ([], r3)
                  | [] => ([], r3)
                  end in
                match span_digits r4 with
                | ([], _) => ([], s3)
                | (ds, rest) => (e :: sg ++ ds, rest)
                end
              else ([], s3)
          | [] => ([], s3)
          end in
        match fp, ep with
        | [], [] =>
            if int_max_str_digits <? Z.of_nat (length ip) then None
            else
              let n := digits_value ip in
              Some (VInt (if neg then - n else n), s4)
        | _, _ =>
            match float_of_str ((if neg then [45] else []) ++ ip ++ fp ++ ep) with
            | Ret x => Some (VFloat x, s4)
            | Raise _ => None
            end
        end
      else None
  | [] => None
  end.

(** [s] begins with the literal [lit]: what follows it. *)
Fixpoint strip_prefix (lit s : pystr) : option pystr :=
  match lit, s with
  | [], _ => Some s
  | a :: lit', b :: s' => if a =? b then strip_prefix lit' s' else None
  | _ :: _, [] => None
  end.

(** [scan_once], [JSONArray] and [JSONObject].  [fuel] bounds the depth of
    the calls; every call made on a string [s] stays within
    [S (2 * length s)] of them.  [array_items] starts at an element,
    [object_items] just after the opening quote of a key. *)
Fixpoint scan_once (fuel : nat) (s : pystr) {struct fuel}
  : option (pyval * pystr) :=
  match fuel with
  | O => None
  | S fuel' =>
      match s with
      | [] => None
      | c :: r =>
          if c =? 34 then
            option_map (fun '(t, rest) => (VStr t, rest)) (scanstring r)
          else if c =? 123 then
            match skip_ws r with
            | q :: r' =>
                if q =? 125 then Some (VDict [], r')
                else if q =? 34 then
                  option_map (fun '(kvs, rest) => (VDict (dict_of_pairs kvs), rest))
                             (object_items fuel' r')
                else None
            | [] => None
            end
          else if c =? 91 then
            match skip_ws r with
            | q :: r' =>
                if q =? 93 then Some (VList [], r')
                else
                  option_map (fun '(vs, rest) => (VList vs, rest))
                             (array_items fuel' (q :: r'))
            | [] => None
            end
          else
            match strip_prefix (str "null") s with
            | Some rest => Some (VNone, rest)
            | None =>
            match strip_prefix (str "true") s with
            | Some rest => Some (VBool true, rest)
            | None =>
            match strip_prefix (str "false") s with
            | Some rest => Some (VBool false, rest)
            | None =>
            match match_number s with
            | Some res => Some res
            | None =>
            match strip_prefix (str "NaN") s with
            | Some rest => Some (VFloat S754_nan, rest)
            | None =>
            match strip_prefix (str "Infinity") s with
            | Some rest => Some (VFloat (S754_infinity false), rest)
            | None =>
            match strip_prefix (str "-Infinity") s with
            | Some rest => Some (VFloat (S754_infinity true), rest)
            | None => None
            end end end end end end end
      end
  end
with array_items (fuel : nat) (s : pystr) {struct fuel}
  : option (list pyval * pystr) :=
  match fuel with
  | O => None
  | S fuel' =>
      match scan_once fuel' s with
      | None => None
      | Some (v, r) =>
          match skip_ws r with
          | c :: r' =>
              if c =? 93 then Some ([v], r')
              else if c =? 44 then
                option_map (fun '(vs, rest) => (v :: vs, rest))
                           (array_items fuel' (skip_ws r'))
              else None
          | [] => None
          end
      end
  end
with object_items (fuel : nat) (s : pystr) {struct fuel}
  : option (list (pystr * pyval) * pystr) :=
  match fuel with
  | O => None
  | S fuel' =>
      match scanstring s with
      | None => None
      | Some (key, r) =>
          match skip_ws r with
          | colon :: r1 =>
              if colon =? 58 then
                match scan_once fuel' (skip_ws r1) with
                | None => None
                | Some (v, r2) =>
                    match skip_ws r2 with
                    | c :: r3 =>
                        if c =? 125 then Some ([(key, v)], r3)
                        else if c =? 44 then
                          match skip_ws r3 with
                          | q :: r4 =>
                              if q =? 34 then
                                option_map
                                  (fun '(kvs, rest) => ((key, v) :: kvs, rest))
                                  (object_items fuel' r4)
                              else None
                          | [] => None
                          end
                        else None
                    | [] => None
                    end
                end
              else None
          | [] => None
          end
      end
  end.

(** [json.loads(s)]: one value between optional whitespace; any failure
    is a [JSONDecodeError], a [ValueError].  The scanner nests as deep as
    the document does: the interpreter's recursion limit, which depends on
    the frames of the caller, is not part of it, and a document nested
    deeper than that raises [RecursionError] in Python. *)
Definition loads (s : pystr) : outcome pyval :=
  if startswith 65279 s then Raise ValueError
  else
    match scan_once (S (2 * length s)) (skip_ws s) with
    | Some (v, rest) =>
        match skip_ws rest with
        | [] => Ret v
        | _ :: _ => Raise ValueError
        end
    | None => Raise ValueError
    end.

End Json.

(** ** analyze_books.py *)

(** *** [normalize_price]

    The string [normalize_price] goes on to parse (lines 62 to 68): the
    value stripped, without its enclosing parentheses, without pound signs
    and commas. *)
Definition price_text (value : pystr) : pystr :=
  let s := strip value in
  let s :=
    if startswith 40 s && endswith 41 s then strip (slice_1_m1 s) else s in
  strip (remove_char 44 (remove_char 163 s)).

(** [depth] counts the frames of [normalize_price] still available: a call
    that cannot be entered raises [RecursionError], as in Python.  The
    [try] block around [json.loads] leaves the function with a value
    ([Some r]), or falls through to the final [float(s)] ([None]). *)
Fixpoint normalize_price_rec (depth : nat) (value : pyval)
  : outcome (option float) :=
  match depth with
  | O => Raise RecursionError
  | S depth' =>
      match value with
      | VNone => Ret None
      | VBool _ | VInt _ | VFloat _ =>
          let! x := py_float value in Ret (Some x)
      | VStr value =>
          let s := price_text value in
          let final :=
            try_except (let! x := py_float (VStr s) in Ret (Some x))
                       (Ret None) in
          if startswith 91 s && endswith 93 s then
            let body :=
              let! parsed := Json.loads s in
              if truthy parsed then
                let! first := getitem0 parsed in
                let! r := normalize_price_rec depth' first in
                Ret (Some r)
              else Ret None in
            match try_except body (Ret None) with
            | Ret (Some r) => Ret r
            | Ret None => final
            | Raise e => Raise e
            end
          else final
      | _ => Ret None
      end
  end.

(** A string of [n] characters nests fewer than [n] calls. *)
Definition nesting_bound (value : pyval) : nat :=
  match value with
  | VStr s => length s
  | _ => O
  end.

Definition normalize_price (value : pyval) : outcome (option float) :=
  normalize_price_rec (S (nesting_bound value)) value.

(** *** Records *)

Abbreviation record := (gmap (list Z) pyval).

(** [it.get(key)] *)
Definition get (it : record) (key : pystr) : pyval :=
  default VNone (it !! key).

Definition is_list_or_tuple (c : pyval) : bool :=
  match c with
  | VList _ | VTuple _ => true
  | _ => false
  end.

(** The test both category loops apply to the value [c] they have read:
    [if c is None: continue], [if isinstance(c, (list, tuple)): c = c[0]],
    [isinstance(c, str) and c.strip().lower() == cat]. *)
Definition category_matches (cat : pystr) (c : pyval) : outcome bool :=
  match c with
  | VNone => Ret false
  | _ =>
      let! c := (if is_list_or_tuple c then getitem0 c else Ret c) in
      Ret (match c with
           | VStr s => str_eqb (lower (strip s)) cat
           | _ => false
           end)
  end.

(** *** [count_books_in_category] *)

Definition count_category_value (it : record) : pyval :=
  py_or (py_or (get it (str "category")) (get it (str "Category")))
        (get it (str "category_name")).

Fixpoint count_category_loop (cat : pystr) (items : list record) (count : Z)
  : outcome Z :=
  match items with
  | [] => Ret count
  | it :: rest =>
      let c := count_category_value it in
      let! m := category_matches cat c in
      count_category_loop cat rest (if m then count + 1 else count)
  end.

Definition count_books_in_category (items : list record) (category : pystr)
  : outcome Z :=
  let cat := lower (strip category) in
  count_category_loop cat items 0.

(** *** [average_price_all] *)

(** [sum(prices)]: the items added from left to right onto [0].  (CPython
    3.12 and later compensate the rounding errors of this sum; no statement
    below depends on how the sum is rounded.) *)
Definition py_sum (prices : list float) : float := fold_left fadd prices fzero.

(** [x / n] for a [float] and an [int]. *)
Definition truediv_float_int (x : float) (n : Z) : outcome float :=
  if n =? 0 then Raise ZeroDivisionError
  else let! d := float_of_int n in Ret (fdiv x d).

(** [None if not prices else sum(prices) / len(prices)] *)
Definition average_of (prices : list float) : outcome (option float) :=
  match prices with
  | [] => Ret None
  | _ :: _ =>
      let! m := truediv_float_int (py_sum prices) (Z.of_nat (length prices)) in
      Ret (Some m)
  end.

Fixpoint average_all_loop (price_field : pystr) (items : list record)
  (prices : list float) : outcome (list float) :=
  match items with
  | [] => Ret prices
  | it :: rest =>
      let! p := normalize_price (get it price_field) in
      match p with
      | Some p => average_all_loop price_field rest (prices ++ [p])
      | None => average_all_loop price_field rest prices
      end
  end.

Definition average_price_all (items : list record) (price_field : pystr)
  : outcome (option float) :=
  let! prices := average_all_loop price_field items [] in
  average_of prices.

(** *** [average_price_in_category] *)

Definition average_category_value (it : record) : pyval :=
  py_or (get it (str "category")) (get it (str "Category")).

Fixpoint average_category_loop (cat price_field : pystr) (items : list record)
  (prices : list float) : outcome (list float) :=
  match items with
  | [] => Ret prices
  | it :: rest =>
      let c := average_category_value it in
      let! m := category_matches cat c in
      if m then
        let! p := normalize_price (get it price_field) in
        match p with
        | Some p => average_category_loop cat price_field rest (prices ++ [p])
        | None => average_category_loop cat price_field rest prices
        end
      else average_category_loop cat price_field rest prices
  end.

Definition average_price_in_category (items : list record)
  (category price_field : pystr) : outcome (option float) :=
  let cat := lower (strip category) in
  let! prices := average_category_loop cat price_field items [] in
  average_of prices.

(** *** [count_books_in_price_range] *)

Fixpoint count_range_loop (min_price max_price : float) (price_field : pystr)
  (items : list record) (count : Z) : outcome Z :=
  match items with
  | [] => Ret count
  | it :: rest =>
      let! p := normalize_price (get it price_field) in
      match p with
      | None => count_range_loop min_price max_price price_field rest count
      | Some p =>
          if fleb min_price p && fleb p max_price then
            count_range_loop min_price max_price price_field rest (count + 1)
          else count_range_loop min_price max_price price_field rest count
      end
  end.

Definition count_books_in_price_range (items : list record)
  (min_price max_price : float) (price_field : pystr) : outcome Z :=
  let '(min_price, max_price) :=
    if fgtb min_price max_price then (max_price, min_price)
    else (min_price, max_price) in
  count_range_loop min_price max_price price_field items 0.

(** ** The notions the specification speaks of *)

(** "Already-numeric input": [isinstance(value, (int, float))], which
    holds of a [bool] as well. *)
Definition is_numeric (v : pyval) : bool :=
  match v with
  | VBool _ | VInt _ | VFloat _ => true
  | _ => false
  end.

(** "The set of successfully normalized prices": the prices of the records
    that normalise to a value, in the order of the records.  A
    normalisation that raises ends the collection. *)
Fixpoint normalized_prices (price_field : pystr) (items : list record)
  : outcome (list float) :=
  match items with
  | [] => Ret []
  | it :: rest =>
      let! p := normalize_price (get it price_field) in
      let! ps := normalized_prices price_field rest in
      Ret (match p with
           | Some x => x :: ps
           | None => ps
           end)
  end.

(** The same over the records whose category, read as
    [average_price_in_category] reads it, matches [cat]. *)
Fixpoint category_prices (cat price_field : pystr) (items : list record)
  : outcome (list float) :=
  match items with
  | [] => Ret []
  | it :: rest =>
      let! m := category_matches cat (average_category_value it) in
      let! p := (if m then normalize_price (get it price_field) else Ret None) in
      let! ps := category_prices cat price_field rest in
      Ret (match p with
           | Some x => x :: ps
           | None => ps
           end)
  end.

(** "The arithmetic mean": the sum divided by the number of prices. *)
Definition arithmetic_mean (prices : list float) : float :=
  fdiv (py_sum prices) (float_of_Z (Z.of_nat (length prices))).

(** [sys.maxsize], the most items a Python sequence holds. *)
Definition sys_maxsize : Z := 2 ^ 63 - 1.

(** "Swap them if min > max". *)
Definition ordered_bounds (a b : float) : float * float :=
  if fgtb a b then (b, a) else (a, b).

(** "Lies within [[min, max]] inclusive". *)
Definition in_closed_interval (lo hi p : float) : bool :=
  fleb lo p && fleb p hi.

Definition count_in_interval (lo hi : float) (prices : list float) : Z :=
  Z.of_nat (length (List.filter (in_closed_interval lo hi) prices)).

(** [p] lies between the two bounds, whichever is the smaller. *)
Definition between (a b p : float) : bool :=
  in_closed_interval a b p || in_closed_interval b a p.

(** The number of records whose category, read as
    [count_books_in_category] reads it, matches [cat]. *)
Fixpoint matching_records (cat : pystr) (items : list record) : outcome Z :=
  match items with
  | [] => Ret 0
  | it :: rest =>
      let! m := category_matches cat (count_category_value it) in
      let! n := matching_records cat rest in
      Ret (if m then 1 + n else n)
  end.

(** ** Measures and side conditions *)

(** What bounds the nesting of [normalize_price] on a parsed value. *)
Definition first_bound (v : pyval) : nat :=
  match v with
  | VStr t => length t
  | VList (x :: _) => nesting_bound x
  | _ => O
  end.

(** [json.loads] builds no tuple. *)
Definition json_shaped (v : pyval) : Prop :=
  match v with
  | VTuple _ => False
  | _ => True
  end.

(** An [int] that [float] converts. *)
Definition convertible (v : pyval) : Prop :=
  match v with
  | VInt n => Z.abs n < float_overflow_threshold
  | _ => True
  end.

(** A category value the loops can index: not an empty list or tuple. *)
Definition nonempty_sequence (c : pyval) : Prop :=
  match c with
  | VList [] | VTuple [] => False
  | _ => True
  end.

(** ** Sample data *)

(** The records of the end-to-end example of the specification. *)
Definition book (price category : pyval) : record :=
  {[ str "price" := price; str "category" := category ]}.

Definition travel_books : list record :=
  [ book (VStr (str "£10.00")) (VStr (str "Travel"));
    book (VStr (str "£30.00")) (VStr (str "Travel"));
    book (VStr (str "bad")) (VStr (str "Travel")) ].

(** The doubles nearest to 51.77 and to 1234.56. *)
Definition price_51_77 : float := S754_finite false 7285979772155331 (-47).
Definition price_1234_56 : float := S754_finite false 5429652300748554 (-42).

(** A record that names its category under [category_name] only. *)
Definition named_category_book : record :=
  {[ str "price" := VStr (str "£10.00");
     str "category_name" := VStr (str "Travel") ]}.

(** An integer no float holds; a JSON file may spell it out. *)
Definition huge_int : Z := 10 ^ 400.

(** * Loading the records and the two front ends *)

(** ** Exceptions beyond those of the computations *)

Inductive failure :=
  | Exn (e : exn)
  | OSError           (* open() on a path that cannot be read *)
  | CsvError          (* _csv.Error *)
  | AttributeError    (* .get on a value that is not a dict *)
  | EOFError.         (* input() at the end of the input *)

Inductive result (A : Type) :=
  | Done (a : A)
  | Failed (f : failure).
Arguments Done {A} a.
Arguments Failed {A} f.

Definition lift {A} (m : outcome A) : result A :=
  match m with
  | Ret a => Done a
  | Raise e => Failed (Exn e)
  end.

Definition rbind {A : Type} {B : Type} (m : result A) (k : A -> result B) : result B :=
  match m with
  | Done a => k a
  | Failed f => Failed f
  end.

Notation "'do!' x ':=' m 'in' k" := (rbind m (fun x => k))
  (at level 10, x name, m at level 100, k at level 200) : py_scope.

(** ** Calling the operations on what was loaded

    [load_items] returns a list of arbitrary values.  The loops call
    [it.get] on each item in turn: on a [dict] it reads the record, on
    anything else it raises [AttributeError]. *)

(** The record a [dict] with string keys stands for. *)
Definition record_of_dict (d : list (pystr * pyval)) : record :=
  fold_left (fun (m : record) kv => <[fst kv := snd kv]> m) d ∅.

(** The records before the first item that is not a [dict], and whether
    every item is one. *)
Fixpoint leading_records (items : list pyval) : list record * bool :=
  match items with
  | [] => ([], true)
  | VDict d :: rest =>
      let '(rs, all) := leading_records rest in (record_of_dict d :: rs, all)
  | _ :: _ => ([], false)
  end.

(** A loop over the items followed by what the function does after it. *)
Definition over_items {A : Type} {B : Type} (loop : list record -> outcome A)
  (finish : A -> outcome B) (items : list pyval) : result B :=
  let '(rs, all) := leading_records items in
  match loop rs with
  | Raise e => Failed (Exn e)
  | Ret a => if all then lift (finish a) else Failed AttributeError
  end.

Definition count_books_in_category_on (items : list pyval) (category : pystr)
  : result Z :=
  let cat := lower (strip category) in
  over_items (fun rs => count_category_loop cat rs 0) Ret items.

Definition average_price_all_on (items : list pyval) (price_field : pystr)
  : result (option float) :=
  over_items (fun rs => average_all_loop price_field rs []) average_of items.

Definition average_price_in_category_on (items : list pyval)
  (category price_field : pystr) : result (option float) :=
  let cat := lower (strip category) in
  over_items (fun rs => average_category_loop cat price_field rs [])
             average_of items.

Definition count_books_in_price_range_on (items : list pyval)
  (min_price max_price : float) (price_field : pystr) : result Z :=
  let '(min_price, max_price) :=
    if fgtb min_price max_price then (max_price, min_price)
    else (min_price, max_price) in
  over_items (fun rs => count_range_loop min_price max_price price_field rs 0)
             Ret items.

(** ** Text files *)

(** [open(path, encoding='utf-8')] read to its end in text mode: the decoded
    text with its line ends translated to ['\n'], or what [open] or the
    decoder raises. *)
Definition filesystem := pystr -> result pystr.

(** [for line in f]: the lines of the text, each with its ['\n']. *)
Fixpoint lines_from (cur : pystr) (text : pystr) : list pystr :=
  match text with
  | [] => match cur with [] => [] | _ :: _ => [rev cur] end
  | c :: rest =>
      if c =? 10 then rev (c :: cur) :: lines_from [] rest
      else lines_from (c :: cur) rest
  end.

Definition text_lines (text : pystr) : list pystr := lines_from [] text.

(** [s.endswith(suffix)] *)
Fixpoint startswith_str (prefix s : pystr) : bool :=
  match prefix, s with
  | [], _ => true
  | a :: p', b :: s' => (a =? b) && startswith_str p' s'
  | _ :: _, [] => false
  end.

Definition endswith_str (suffix s : pystr) : bool :=
  startswith_str (rev suffix) (rev s).

(** ** The [csv] module: [csv.reader] with the [excel] dialect *)

Module Csv.

Inductive state :=
  | START_RECORD
  | START_FIELD
  | IN_FIELD
  | IN_QUOTED_FIELD
  | QUOTE_IN_QUOTED_FIELD
  | EAT_CRNL.

(** The fields of the record so far and the characters of the field so
    far, both latest first. *)
Record reader := {
  fields : list pystr;
  field : pystr;
  st : state
}.

Definition reset : reader := {| fields := []; field := []; st := START_RECORD |}.

(** [csv.field_size_limit()] *)
Definition field_limit : Z := 131072.

(** [parse_add_char] *)
Definition add_char (r : reader) (c : Z) (s : state) : option reader :=
  if field_limit <=? Z.of_nat (length (field r)) then None
  else Some {| fields := fields r; field := c :: field r; st := s |}.

(** [parse_save_field] *)
Definition save_field (r : reader) (s : state) : reader :=
  {| fields := rev (field r) :: fields r; field := []; st := s |}.

Definition set_state (r : reader) (s : state) : reader :=
  {| fields := fields r; field := field r; st := s |}.

Definition is_newline (c : Z) : bool := (c =? 10) || (c =? 13).

(** [parse_process_char]; [None] as the character is the end of a line,
    [None] as the result is [_csv.Error]. *)
Definition process_char (r : reader) (c : option Z) : option reader :=
  let start_field (r : reader) :=
    match c with
    | None => Some (save_field r START_RECORD)
    | Some c =>
        if is_newline c then Some (save_field r EAT_CRNL)
        else if c =? 34 then Some (set_state r IN_QUOTED_FIELD)
        else if c =? 44 then Some (save_field r START_FIELD)
        else add_char r c IN_FIELD
    end in
  match st r with
  | START_RECORD =>
      match c with
      | None => Some r
      | Some c' =>
          if is_newline c' then Some (set_state r EAT_CRNL)
          else start_field r
      end
  | START_FIELD => start_field r
  | IN_FIELD =>
      match c with
      | None => Some (save_field r START_RECORD)
      | Some c =>
          if is_newline c then Some (save_field r EAT_CRNL)
          else if c =? 44 then Some (save_field r START_FIELD)
          else add_char r c IN_FIELD
      end
  | IN_QUOTED_FIELD =>
      match c with
      | None => Some r
      | Some c =>
          if c =? 34 then Some (set_state r QUOTE_IN_QUOTED_FIELD)
          else add_char r c IN_QUOTED_FIELD
      end
  | QUOTE_IN_QUOTED_FIELD =>
      match c with
      | None => Some (save_field r START_RECORD)
      | Some c =>
          if c =? 34 then add_char r c IN_QUOTED_FIELD
          else if c =? 44 then Some (save_field r START_FIELD)
          else if is_newline c then Some (save_field r EAT_CRNL)
          else add_char r c IN_FIELD
      end
  | EAT_CRNL =>
      match c with
      | None => Some (set_state r START_RECORD)
      | Some c => if is_newline c then Some r else None
      end
  end.

(** One line: its characters, then the end of the line. *)
Fixpoint process_line (r : reader) (line : pystr) : option reader :=
  match line with
  | [] => process_char r None
  | c :: rest =>
      match process_char r (Some c) with
      | Some r' => process_line r' rest
      | None => None
      end
  end.

(** [Reader_iternext] run to the end of the input: the rows.  A row ends
    with the line that leaves the reader at the start of a record; the
    input ending inside a quoted field ends the row there. *)
Fixpoint rows_from (r : reader) (lines : list pystr)
  : option (list (list pystr)) :=
  match lines with
  | [] =>
      match st r, field r with
      | IN_QUOTED_FIELD, _ | _, _ :: _ =>
          Some [rev (fields (save_field r START_RECORD))]
      | _, [] => Some []
      end
  | line :: rest =>
      match process_line r line with
      | None => None
      | Some r' =>
          match st r' with
          | START_RECORD =>
              option_map (cons (rev (fields r'))) (rows_from reset rest)
          | _ => rows_from r' rest
          end
      end
  end.

Definition rows (lines : list pystr) : option (list (list pystr)) :=
  rows_from reset lines.

(** [csv.DictReader.__next__] on one row: the field names zipped with the
    row, the names beyond the row set to [None].  The fields beyond the
    names go under the key [None], which no string key reads and which a
    record does not hold. *)
Fixpoint zip_row (fieldnames row : list pystr) : list (pystr * pyval) :=
  match fieldnames, row with
  | k :: ks, v :: vs => (k, VStr v) :: zip_row ks vs
  | k :: ks, [] => (k, VNone) :: zip_row ks []
  | [], _ => []
  end.

Definition dict_row (fieldnames row : list pystr) : list (pystr * pyval) :=
  dict_of_pairs (zip_row fieldnames row).

Definition is_blank_row (row : list pystr) : bool :=
  match row with
  | [] => true
  | _ :: _ => false
  end.

(** [list(csv.DictReader(f))]: the first row names the fields, blank rows
    after it are passed over. *)
Definition dict_reader (text : pystr) : result (list (list (pystr * pyval))) :=
  match rows (text_lines text) with
  | None => Failed CsvError
  | Some [] => Done []
  | Some (fieldnames :: rest) =>
      Done (map (dict_row fieldnames)
                (List.filter (fun row => negb (is_blank_row row)) rest))
  end.

End Csv.

(** ** [load_items] *)

(** The [.jl] loop over the lines of the file. *)
Fixpoint load_lines (lines : list pystr) (items : list pyval)
  : result (list pyval) :=
  match lines with
  | [] => Done items
  | line :: rest =>
      let line := strip line in
      match line with
      | [] => load_lines rest items
      | _ :: _ =>
          do! v := lift (Json.loads line) in
          load_lines rest (items ++ [v])
      end
  end.

Definition load_items (fs : filesystem) (path : pystr) : result (list pyval) :=
  let path := remove_char 34 path in
  if endswith_str (str ".csv") (lower path) then
    do! text := fs path in
    do! rows := Csv.dict_reader text in
    Done (map VDict rows)
  else if endswith_str (str ".jl") (lower path) then
    do! text := fs path in
    load_lines (text_lines text) []
  else
    do! text := fs path in
    do! data := lift (Json.loads text) in
    match data with
    | VList items => Done items
    | _ => Failed (Exn ValueError)
    end.

(** ** Formatting *)

Fixpoint uint_digits (u : Decimal.uint) : pystr :=
  match u with
  | Decimal.Nil => []
  | Decimal.D0 u => 48 :: uint_digits u
  | Decimal.D1 u => 49 :: uint_digits u
  | Decimal.D2 u => 50 :: uint_digits u
  | Decimal.D3 u => 51 :: uint_digits u
  | Decimal.D4 u => 52 :: uint_digits u
  | Decimal.D5 u => 53 :: uint_digits u
  | Decimal.D6 u => 54 :: uint_digits u
  | Decimal.D7 u => 55 :: uint_digits u
  | Decimal.D8 u => 56 :: uint_digits u
  | Decimal.D9 u => 57 :: uint_digits u
  end.

(** [str(n)] for an [int] *)
Definition str_of_int (n : Z) : pystr :=
  match n with
  | Z0 => [48]
  | Zpos p => uint_digits (Pos.to_uint p)
  | Zneg p => 45 :: uint_digits (Pos.to_uint p)
  end.

(** [num / den] rounded to the nearest integer, ties to even. *)
Definition round_half_even (num den : Z) : Z :=
  let q := num / den in
  let r := num mod den in
  match 2 * r ?= den with
  | Lt => q
  | Gt => q + 1
  | Eq => if Z.even q then q else q + 1
  end.

(** [format(x, '.2f')]: the exact value of [x] rounded to two decimals. *)
Definition format_2f (x : float) : pystr :=
  let sign (s : bool) : pystr := if s then [45] else [] in
  let fixed (hundredths : Z) : pystr :=
    let cents := hundredths mod 100 in
    str_of_int (hundredths / 100) ++ [46]
      ++ [48 + cents / 10; 48 + cents mod 10] in
  match x with
  | S754_nan => str "nan"
  | S754_infinity s => sign s ++ str "inf"
  | S754_zero s => sign s ++ fixed 0
  | S754_finite s m e =>
      sign s ++
      fixed (if 0 <=? e then Zpos m * 100 * 2 ^ e
             else round_half_even (Zpos m * 100) (2 ^ (- e)))
  end.

(** ** [main] of analyze_books.py *)

(** What [_parse_args] returns. *)
Record namespace := {
  input : pystr;
  count_category : option pystr;
  avg_all : bool;
  avg_category : option pystr;
  count_range : option (pystr * pystr);
  price_field : pystr
}.

(** The truth value of an optional string argument. *)
Definition given (a : option pystr) : option pystr :=
  match a with
  | Some (c :: s) => Some (c :: s)
  | _ => None
  end.

(** [main]: the lines it prints. *)
Definition main (fs : filesystem) (args : namespace) : result (list pystr) :=
  do! items := load_items fs (input args) in
  match given (count_category args) with
  | Some category =>
      do! n := count_books_in_category_on items category in
      Done [str "Count books in category '" ++ category ++ str "': "
            ++ str_of_int n]
  | None =>
  if avg_all args then
    do! avg := average_price_all_on items (price_field args) in
    match avg with
    | None => Done [str "No prices found to compute average"]
    | Some avg => Done [str "Average price (all books): £" ++ format_2f avg]
    end
  else
  match given (avg_category args) with
  | Some category =>
      do! avg := average_price_in_category_on items category (price_field args) in
      match avg with
      | None =>
          Done [str "No prices found in category '" ++ category ++ str "'"]
      | Some avg =>
          Done [str "Average price in category '" ++ category ++ str "': £"
                ++ format_2f avg]
      end
  | None =>
  match count_range args with
  | Some (mn, mx) =>
      match float_of_str mn, float_of_str mx with
      | Ret mn, Ret mx =>
          do! n := count_books_in_price_range_on items mn mx (price_field args) in
          Done [str "Count books in range £" ++ format_2f mn ++ str " - £"
                ++ format_2f mx ++ str ": " ++ str_of_int n]
      | _, _ => Done [str "MIN and MAX must be numeric"]
      end
  | None => Done []
  end end end.

(** ** cli_menu.py *)

(** What is written to the terminal: a printed line, the prompt of an
    [input], and the line that reports why a file did not load, whose text
    is that of the exception. *)
Inductive event :=
  | Print (s : pystr)
  | Prompt (s : pystr)
  | PrintLoadError (f : failure).

(** The lines still to be typed and what was written so far, latest
    first. *)
Record world := {
  stdin : list pystr;
  stdout : list event
}.

(** How a call ends; [Unfinished] when the loop was not given the turns it
    needs. *)
Inductive ending (A : Type) :=
  | Returns (a : A)
  | Raises (f : failure)
  | Unfinished.
Arguments Returns {A} a.
Arguments Raises {A} f.
Arguments Unfinished {A}.

Definition io (A : Type) := world -> ending A * world.

Definition io_bind {A : Type} {B : Type} (m : io A) (k : A -> io B) : io B :=
  fun w =>
    match m w with
    | (Returns a, w') => k a w'
    | (Raises f, w') => (Raises f, w')
    | (Unfinished, w') => (Unfinished, w')
    end.

Definition io_ret {A : Type} (a : A) : io A := fun w => (Returns a, w).

Notation "'io!' x ':=' m 'in' k" := (io_bind m (fun x => k))
  (at level 10, x name, m at level 100, k at level 200) : py_scope.

Definition write (e : event) : io unit :=
  fun w => (Returns tt, {| stdin := stdin w; stdout := e :: stdout w |}).

(** [print(s)] *)
Definition print (s : pystr) : io unit := write (Print s).

(** [input(prompt)] *)
Definition py_input (prompt : pystr) : io pystr :=
  fun w =>
    let out := Prompt prompt :: stdout w in
    match stdin w with
    | [] => (Raises EOFError, {| stdin := []; stdout := out |})
    | line :: rest => (Returns line, {| stdin := rest; stdout := out |})
    end.

(** A call that does not touch the terminal. *)
Definition call {A : Type} (r : result A) : io A :=
  fun w =>
    match r with
    | Done a => (Returns a, w)
    | Failed f => (Raises f, w)
    end.

(** [ask] *)
Definition ask (prompt : pystr) (default : option pystr) : io pystr :=
  match default with
  | None => py_input prompt
  | Some default =>
      io! val := py_input (prompt ++ str " [" ++ default ++ str "]: ") in
      io_ret (match strip val with
              | [] => default
              | c :: s => c :: s
              end)
  end.

(** [choose_file]; one turn of the loop for each line it reads. *)
Fixpoint choose_file_turns (turns : nat) (fs : filesystem) : io (list pyval) :=
  match turns with
  | O => fun w => (Unfinished, w)
  | S turns' =>
      io! path := py_input (str "Path to scraped file (json/jsonl/jl/csv): ") in
      let path := strip path in
      match path with
      | [] =>
          io! _ := print (str "Please provide a file path.") in
          choose_file_turns turns' fs
      | _ :: _ =>
          match load_items fs path with
          | Done items =>
              io! _ := print (str "Loaded "
                              ++ str_of_int (Z.of_nat (length items))
                              ++ str " items from " ++ path) in
              io_ret items
          | Failed f =>
              io! _ := write (PrintLoadError f) in
              choose_file_turns turns' fs
          end
      end
  end.

Definition choose_file (fs : filesystem) : io (list pyval) :=
  fun w => choose_file_turns (S (length (stdin w))) fs w.

Definition print_menu : io unit :=
  io! _ := print (10 :: str "Select action:") in
  io! _ := print (str "  1) Count books in a category") in
  io! _ := print (str "  2) Average price (all books)") in
  io! _ := print (str "  3) Average price in a category") in
  io! _ := print (str "  4) Count books in a price range") in
  io! _ := print (str "  5) Reload file") in
  print (str "  0) Exit").

(** The body of the loop of [run_menu] after a choice other than ['0']:
    the items the next turn works on. *)
Definition menu_action (fs : filesystem) (choice : pystr)
  (items : list pyval) : io (list pyval) :=
  if str_eqb choice (str "1") then
    io! cat := py_input (str "Category name: ") in
    let cat := strip cat in
    match cat with
    | [] =>
        io! _ := print (str "Category cannot be empty") in io_ret items
    | _ :: _ =>
        io! n := call (count_books_in_category_on items cat) in
        io! _ := print (str "Count books in category '" ++ cat ++ str "': "
                        ++ str_of_int n) in
        io_ret items
    end
  else if str_eqb choice (str "2") then
    io! price_field := ask (str "Price field name") (Some (str "price")) in
    io! avg := call (average_price_all_on items price_field) in
    io! _ :=
      match avg with
      | None => print (str "No valid prices found to compute average")
      | Some avg =>
          print (str "Average price (all books) using field " ++ [dquote]
                 ++ price_field ++ [dquote] ++ str ": £" ++ format_2f avg)
      end in
    io_ret items
  else if str_eqb choice (str "3") then
    io! cat := py_input (str "Category name: ") in
    let cat := strip cat in
    match cat with
    | [] =>
        io! _ := print (str "Category cannot be empty") in io_ret items
    | _ :: _ =>
        io! price_field := ask (str "Price field name") (Some (str "price")) in
        io! avg := call (average_price_in_category_on items cat price_field) in
        io! _ :=
          match avg with
          | None =>
              print (str "No valid prices found in category '" ++ cat
                     ++ str "'")
          | Some avg =>
              print (str "Average price in category '" ++ cat
                     ++ str "' using field '" ++ price_field ++ str "': £"
                     ++ format_2f avg)
          end in
        io_ret items
    end
  else if str_eqb choice (str "4") then
    io! mn := py_input (str "Minimum price (e.g. 5): ") in
    io! mx := py_input (str "Maximum price (e.g. 20): ") in
    match float_of_str (strip mn), float_of_str (strip mx) with
    | Ret mnf, Ret mxf =>
        io! price_field := ask (str "Price field name") (Some (str "price")) in
        io! n := call (count_books_in_price_range_on items mnf mxf price_field) in
        io! _ := print (str "Count books in range £" ++ format_2f mnf
                        ++ str " - £" ++ format_2f mxf ++ str " (field "
                        ++ [dquote] ++ price_field ++ [dquote] ++ str "): "
                        ++ str_of_int n) in
        io_ret items
    | _, _ =>
        io! _ := print (str "Please enter numeric values for min and max") in
        io_ret items
    end
  else if str_eqb choice (str "5") then choose_file fs
  else
    io! _ := print (str "Unknown choice — enter a number from the menu") in
    io_ret items.

(** The loop of [run_menu]; one turn for each choice it reads. *)
Fixpoint menu_turns (turns : nat) (fs : filesystem) (items : list pyval)
  : io unit :=
  match turns with
  | O => fun w => (Unfinished, w)
  | S turns' =>
      io! _ := print_menu in
      io! choice := py_input (str "Choice: ") in
      let choice := strip choice in
      if str_eqb choice (str "0") then print (str "Goodbye")
      else
        io! items := menu_action fs choice items in
        menu_turns turns' fs items
  end.

Definition run_menu (fs : filesystem) : io unit :=
  io! _ := print (str "Books analysis — interactive menu") in
  io! items := choose_file fs in
  fun w => menu_turns (S (length (stdin w))) fs items w.

(** A session: what is typed, what is written (in order) and how it
    ends. *)
Definition session (fs : filesystem) (typed : list pystr)
  : ending unit * list event :=
  let '(e, w) := run_menu fs {| stdin := typed; stdout := [] |} in
  (e, rev (stdout w)).

(** ** Notions of the further properties *)

(** The records whose category, read as [average_price_in_category] reads
    it, matches [cat]. *)
Fixpoint matching_items (cat : pystr) (items : list record)
  : outcome (list record) :=
  match items with
  | [] => Ret []
  | it :: rest =>
      let! m := category_matches cat (average_category_value it) in
      let! sel := matching_items cat rest in
      Ret (if m then it :: sel else sel)
  end.

Definition same_prices (a b : outcome (list float)) : Prop :=
  match a, b with
  | Ret p, Ret p' => Permutation p p'
  | Raise e, Raise e' => e = e'
  | _, _ => False
  end.

Definition all_space (s : pystr) : Prop := Forall (fun c => is_space c = true) s.

(** A text that ends a line, or is empty. *)
Definition ends_line (t : pystr) : Prop := t = [] \/ exists t', t = t' ++ [10].

(** Which branch of [load_items] a path takes. *)
Definition is_csv_path (path : pystr) : bool :=
  endswith_str (str ".csv") (lower (remove_char 34 path)).
Definition is_jl_path (path : pystr) : bool :=
  negb (is_csv_path path)
  && endswith_str (str ".jl") (lower (remove_char 34 path)).

(** What [csv.DictReader] puts in a record. *)
Definition csv_value (v : pyval) : Prop :=
  match v with
  | VStr _ | VNone => True
  | _ => False
  end.

Definition file (name text : pystr) : filesystem :=
  fun path => if str_eqb path name then Done text else Failed OSError.

Definition dict_values (P : pyval -> Prop) (d : list (pystr * pyval)) : Prop :=
  Forall (fun kv => P (snd kv)) d.

Definition sample_csv : pystr :=
  str "price,category" ++ [10] ++ str "£10.00,Travel" ++ [10]
  ++ str "oops" ++ [10].

(** Whether a mode of [main] is selected by an argument that is true. *)
Definition mode_selected (args : namespace) : bool :=
  match given (count_category args), avg_all args,
        given (avg_category args), count_range args with
  | None, false, None, None => false
  | _, _, _, _ => true
  end.

(** What is left to type after an action is the end of what was left
    before it, and the action was given its turns. *)
Definition settled {A : Type} (w : world) (r : ending A * world) : Prop :=
  suffix (stdin (snd r)) (stdin w) /\ fst r <> Unfinished.


(** The lines of a [.jl] file that hold an item. *)
Definition item_lines (text : pystr) : list pystr :=
  List.filter (fun line => negb (Nat.eqb (length line) 0))
              (map strip (text_lines text)).

Definition csv_args : namespace :=
  {| input := str "books.csv"; count_category := Some (str "Travel");
     avg_all := false; avg_category := None; count_range := None;
     price_field := str "price" |}.

(** What the record read from [row] under the names [fieldnames] holds
    under [key]: the field in the last column of that name, [None] when
    the row ends before that column, and nothing when no column has the
    name. *)
Fixpoint cell (fieldnames row : list pystr) (key : pystr) : option pyval :=
  match fieldnames with
  | [] => None
  | k :: ks =>
      match cell ks (tl row) key with
      | Some v => Some v
      | None =>
          if decide (k = key) then
            Some (match row with
                  | v :: _ => VStr v
                  | [] => VNone
                  end)
          else None
      end
  end.

(** The rows [csv.reader] reads from a text: the first one, and the ones
    after it that are not blank. *)
Definition header_and_rows (text : pystr)
  : option (list pystr * list (list pystr)) :=
  match Csv.rows (text_lines text) with
  | Some (fieldnames :: rest) =>
      Some (fieldnames,
            List.filter (fun row => negb (Csv.is_blank_row row)) rest)
  | _ => None
  end.

(** Items on which each of the four operations returns, whatever its other
    arguments. *)
Definition accepted (items : list pyval) : Prop :=
  forall (category price_field : pystr) (a b : float),
    (exists n, count_books_in_category_on items category = Done n) /\
    (exists r, average_price_all_on items price_field = Done r) /\
    (exists r, average_price_in_category_on items category price_field = Done r) /\
    (exists n, count_books_in_price_range_on items a b price_field = Done n).

(** A file system all of whose files that load hold such items. *)
Definition clean (fs : filesystem) : Prop :=
  forall path items, load_items fs path = Done items -> accepted items.

(** An action that returns what satisfies [P] or else raises [EOFError]. *)
Definition tame {A : Type} (P : A -> Prop) (r : ending A * world) : Prop :=
  match fst r with
  | Returns a => P a
  | Raises f => f = EOFError
  | Unfinished => False
  end.

(** * Properties *)

(** ** Tactics *)

Ltac break_match_in H :=
  match type of H with
  | context [match ?x with _ => _ end] =>
      lazymatch x with
      | context [match _ with _ => _ end] => fail
      | _ => destruct x eqn:?
      end
  end.

Ltac inv_some H := injection H as ?; subst.

(** ** The JSON scanner consumes what it returns *)

Lemma skip_ws_length (s : pystr) : (length (Json.skip_ws s) <= length s)%nat.
Proof. induction s as [|c r IH]; simpl; [lia|]. destruct (Json.is_ws c); simpl; lia. Qed.

Lemma span_digits_length (s ds rest : pystr) :
  span_digits s = (ds, rest) -> (length ds + length rest = length s)%nat.
Proof.
  revert ds rest. induction s as [|c r IH]; simpl; intros ds rest H.
  - inv_some H. reflexivity.
  - destruct (is_digit c).
    + destruct (span_digits r) as [ds' rest'] eqn:E. inv_some H.
      specialize (IH _ _ eq_refl). simpl. lia.
    + inv_some H. reflexivity.
Qed.

Lemma strip_prefix_length (lit s rest : pystr) :
  Json.strip_prefix lit s = Some rest -> (length rest + length lit = length s)%nat.
Proof.
  revert s rest. induction lit as [|a lit IH]; intros [|b s] rest H; simpl in *;
    try discriminate; try (inv_some H; simpl; lia).
  destruct (a =? b); [|discriminate]. apply IH in H. lia.
Qed.

Lemma scanstring_length (n : nat) : forall (s t rest : pystr),
  (length s <= n)%nat -> Json.scanstring s = Some (t, rest) ->
  (length t + length rest < length s)%nat.
Proof.
  induction n as [|n IH]; intros s t rest Hn H.
  - destruct s; simpl in *; [discriminate|lia].
  - destruct s as [|c r]; [discriminate|].
    cbn [Json.scanstring] in H.
    repeat (first [ discriminate
                  | progress (unfold option_map in H)
                  | break_match_in H ]);
    repeat match goal with
    | E : Json.scanstring ?x = Some (_, _) |- _ =>
        apply IH in E; [|simpl in *; lia]
    end;
    inv_some H; simpl in *; lia.
Qed.

Lemma span_digits_cons (c : Z) (r ds rest : pystr) :
  is_digit c = true -> span_digits (c :: r) = (ds, rest) ->
  (length rest <= length r)%nat.
Proof.
  intros Hc H. simpl in H. rewrite Hc in H.
  destruct (span_digits r) as [ds' rest'] eqn:E. inv_some H.
  apply span_digits_length in E. lia.
Qed.

Lemma match_number_length (s : pystr) (v : pyval) (rest : pystr) :
  Json.match_number s = Some (v, rest) ->
  (length rest < length s)%nat /\
  match v with VInt _ | VFloat _ => True | _ => False end.
Proof.
  unfold Json.match_number. intros H.
  repeat (first [ discriminate | break_match_in H ]);
  repeat match goal with
  | D : is_digit ?c = true, E : span_digits (?c :: _) = (_, _) |- _ =>
      apply (span_digits_cons _ _ _ _ D) in E
  | E : span_digits _ = (_, _) |- _ => apply span_digits_length in E
  | E : (_, _) = (_, _) |- _ => inv_some E
  end;
  inv_some H; (split; [simpl in *; lia | exact I]).
Qed.

Lemma nesting_le_first (v : pyval) : (nesting_bound v <= first_bound v)%nat.
Proof. destruct v; simpl; lia. Qed.

Lemma strip_prefix_lt (lit s rest : pystr) :
  (0 < length lit)%nat -> Json.strip_prefix lit s = Some rest ->
  (length rest < length s)%nat.
Proof. intros Hl H. apply strip_prefix_length in H. lia. Qed.

#[local] Arguments Json.strip_prefix : simpl never.
#[local] Arguments Json.match_number : simpl never.
#[local] Arguments Json.scanstring : simpl never.
#[local] Arguments Json.skip_ws : simpl never.
#[local] Arguments str : simpl never.

Lemma scan_length (fuel : nat) :
  (forall s v rest, Json.scan_once fuel s = Some (v, rest) ->
     (first_bound v + length rest < length s)%nat /\ json_shaped v) /\
  (forall s vs rest, Json.array_items fuel s = Some (vs, rest) ->
     (length rest < length s)%nat /\
     match vs with
     | x :: _ => (nesting_bound x + length rest < length s)%nat
     | [] => False
     end) /\
  (forall s kvs rest, Json.object_items fuel s = Some (kvs, rest) ->
     (length rest < length s)%nat).
Proof.
  induction fuel as [|fuel (IHs & IHa & IHo)].
  - repeat split; intros; discriminate.
  - split; [|split].
    + intros s v rest H. cbn [Json.scan_once] in H.
      repeat (first [ discriminate
                    | progress (unfold option_map in H)
                    | break_match_in H ]);
      inv_some H;
      repeat match goal with
      | E : Json.scanstring _ = Some _ |- _ =>
          apply (scanstring_length _ _ _ _ (Nat.le_refl _)) in E
      | E : Json.array_items _ _ = Some _ |- _ => apply IHa in E; destruct E
      | E : Json.object_items _ _ = Some _ |- _ => apply IHo in E
      | E : Json.strip_prefix _ _ = Some _ |- _ =>
          apply strip_prefix_lt in E; [|vm_compute; lia]
      | E : Json.match_number _ = Some _ |- _ =>
          apply match_number_length in E; destruct E
      | E : Json.skip_ws ?r = _ :: _ |- _ =>
          pose proof (skip_ws_length r); rewrite E in *; clear E
      end;
      simpl in *;
      repeat match goal with
      | X : match ?v with _ => _ end |- _ => destruct v; try contradiction
      end;
      (split; [|exact I]); simpl in *; lia.
    + intros s vs rest H. cbn [Json.array_items] in H.
      repeat (first [ discriminate
                    | progress (unfold option_map in H)
                    | break_match_in H ]);
      inv_some H;
      repeat match goal with
      | E : Json.scan_once _ _ = Some (?v, _) |- _ =>
          apply IHs in E; destruct E; pose proof (nesting_le_first v)
      | E : Json.array_items _ _ = Some _ |- _ => apply IHa in E; destruct E
      | E : Json.skip_ws ?r = _ :: _ |- _ =>
          pose proof (skip_ws_length r); rewrite E in *; clear E
      | |- context [Json.skip_ws ?r] => pose proof (skip_ws_length r)
      | H' : context [Json.skip_ws ?r] |- _ =>
          lazymatch goal with
          | _ : (length (Json.skip_ws r) <= _)%nat |- _ => fail
          | _ => pose proof (skip_ws_length r)
          end
      end;
      simpl in *; split; lia.
    + intros s vs rest H. cbn [Json.object_items] in H.
      repeat (first [ discriminate
                    | progress (unfold option_map in H)
                    | break_match_in H ]);
      inv_some H;
      repeat match goal with
      | E : Json.scanstring _ = Some _ |- _ =>
          apply (scanstring_length _ _ _ _ (Nat.le_refl _)) in E
      | E : Json.scan_once _ _ = Some (?v, _) |- _ =>
          apply IHs in E; destruct E
      | E : Json.object_items _ _ = Some _ |- _ => apply IHo in E
      | E : Json.skip_ws ?r = _ :: _ |- _ =>
          pose proof (skip_ws_length r); rewrite E in *; clear E
      | H' : context [Json.skip_ws ?r] |- _ =>
          lazymatch goal with
          | _ : (length (Json.skip_ws r) <= _)%nat |- _ => fail
          | _ => pose proof (skip_ws_length r)
          end
      end;
      simpl in *; lia.
Qed.

(** ** The fuel of the JSON scanner is enough *)


Ltac note_lengths :=
  repeat match goal with
  | E : Json.scanstring _ = Some _ |- _ =>
      pose proof (scanstring_length _ _ _ _ (Nat.le_refl _) E);
      revert E
  | E : Json.scan_once _ _ = Some _ |- _ =>
      pose proof (proj1 (proj1 (scan_length _) _ _ _ E)); revert E
  | E : Json.array_items _ _ = Some _ |- _ =>
      pose proof (proj1 (proj1 (proj2 (scan_length _)) _ _ _ E)); revert E
  | E : Json.object_items _ _ = Some _ |- _ =>
      pose proof (proj2 (proj2 (scan_length _)) _ _ _ E); revert E
  | E : Json.skip_ws ?r = _ :: _ |- _ =>
      let L := fresh "L" in
      pose proof (skip_ws_length r) as L; rewrite E in L; revert E
  end; intros;
  repeat match goal with
  | H' : context [Json.skip_ws ?r] |- _ =>
      lazymatch goal with
      | _ : (length (Json.skip_ws r) <= _)%nat |- _ => fail
      | _ => pose proof (skip_ws_length r)
      end
  end.

(** A parse that succeeds with some fuel succeeds with twice the number of
    characters it reads. *)
Lemma scan_fuel (fuel : nat) :
  (forall s v rest g, Json.scan_once fuel s = Some (v, rest) ->
     (2 * (length s - length rest) <= g)%nat ->
     Json.scan_once g s = Some (v, rest)) /\
  (forall s vs rest g, Json.array_items fuel s = Some (vs, rest) ->
     (2 * (length s - length rest) <= g)%nat ->
     Json.array_items g s = Some (vs, rest)) /\
  (forall s kvs rest g, Json.object_items fuel s = Some (kvs, rest) ->
     (2 * (length s - length rest) <= g)%nat ->
     Json.object_items g s = Some (kvs, rest)).
Proof.
  induction fuel as [|fuel (IHs & IHa & IHo)].
  - repeat split; intros; discriminate.
  - assert (Hs := proj1 (scan_length (S fuel))).
    assert (Ha := proj1 (proj2 (scan_length (S fuel)))).
    assert (Ho := proj2 (proj2 (scan_length (S fuel)))).
    split; [|split]; intros s v rest g H Hg;
      [ pose proof (proj1 (Hs _ _ _ H))
      | pose proof (proj1 (Ha _ _ _ H))
      | pose proof (Ho _ _ _ H) ];
      clear Hs Ha Ho;
      (destruct g as [|g]; [lia|]);
      cbn [Json.scan_once Json.array_items Json.object_items] in H |- *;
      repeat (first [ discriminate
                    | progress (unfold option_map in H)
                    | break_match_in H ]);
      inv_some H; try reflexivity; note_lengths;
      repeat match goal with
      | E : Json.scan_once fuel _ = Some _ |- _ =>
          rewrite (IHs _ _ _ g E) by (simpl in *; lia)
      | E : Json.array_items fuel _ = Some _ |- _ =>
          rewrite (IHa _ _ _ g E) by (simpl in *; lia)
      | E : Json.object_items fuel _ = Some _ |- _ =>
          rewrite (IHo _ _ _ g E) by (simpl in *; lia)
      | E : Json.skip_ws _ = _ |- _ => rewrite E
      | E : Json.scanstring _ = _ |- _ => rewrite E
      | E : (_ =? _) = _ |- _ => rewrite E
      end; reflexivity.
Qed.

Lemma loads_fuel (fuel : nat) (s : pystr) (v : pyval) (rest : pystr) :
  Json.scan_once fuel (Json.skip_ws s) = Some (v, rest) ->
  Json.scan_once (S (2 * length s)) (Json.skip_ws s) = Some (v, rest).
Proof.
  intros H. apply (proj1 (scan_fuel fuel) _ _ _ _ H).
  pose proof (skip_ws_length s). lia.
Qed.

(** ** The recursion of [normalize_price] *)

Lemma loads_first_bound (s : pystr) (parsed first : pyval) :
  Json.loads s = Ret parsed -> getitem0 parsed = Ret first ->
  (nesting_bound first < length s)%nat.
Proof.
  unfold Json.loads. intros H G.
  destruct (startswith 65279 s); [discriminate|].
  destruct (Json.scan_once _ _) as [[v rest]|] eqn:E; [|discriminate].
  destruct (Json.skip_ws rest); [|discriminate].
  injection H as ->.
  apply (proj1 (scan_length _)) in E. destruct E as [Hb Hj].
  pose proof (skip_ws_length s).
  destruct parsed as [| | | |t|l|l|d]; simpl in G; try discriminate.
  - destruct t; [discriminate|]. injection G as <-. simpl in *. lia.
  - destruct l; [discriminate|]. injection G as <-. simpl in *. lia.
  - contradiction.
Qed.

Lemma lstrip_length (s : pystr) : (length (lstrip s) <= length s)%nat.
Proof. induction s as [|c r IH]; simpl; [lia|]. destruct (is_space c); simpl; lia. Qed.

Lemma strip_length (s : pystr) : (length (strip s) <= length s)%nat.
Proof.
  unfold strip, rstrip. rewrite length_rev.
  etransitivity; [apply lstrip_length|]. rewrite length_rev. apply lstrip_length.
Qed.

Lemma remove_char_length (c : Z) (s : pystr) :
  (length (remove_char c s) <= length s)%nat.
Proof. apply length_filter. Qed.

Lemma slice_1_m1_length (s : pystr) : (length (slice_1_m1 s) <= length s)%nat.
Proof.
  unfold slice_1_m1. destruct s as [|c r]; simpl; [lia|].
  induction r as [|x r IH] using rev_ind; simpl; [lia|].
  rewrite removelast_last, length_app. simpl. lia.
Qed.

Lemma price_text_length (value : pystr) :
  (length (price_text value) <= length value)%nat.
Proof.
  unfold price_text.
  pose proof (strip_length value) as H0.
  set (s0 := strip value) in *.
  assert (H1 : (length (if startswith 40 s0 && endswith 41 s0
                        then strip (slice_1_m1 s0) else s0) <= length s0)%nat).
  { destruct (_ && _); [|lia].
    etransitivity; [apply strip_length|apply slice_1_m1_length]. }
  set (s1 := if startswith 40 s0 && endswith 41 s0
             then strip (slice_1_m1 s0) else s0) in *.
  etransitivity; [apply strip_length|].
  etransitivity; [apply remove_char_length|].
  etransitivity; [apply remove_char_length|]. lia.
Qed.

Lemma normalize_price_rec_stable (n : nat) : forall (m : nat) (v : pyval),
  (nesting_bound v < n)%nat -> (nesting_bound v < m)%nat ->
  normalize_price_rec n v = normalize_price_rec m v.
Proof.
  induction n as [|n IH]; intros m v Hn Hm; [lia|].
  destruct m as [|m]; [lia|].
  destruct v as [| | | |value| | |]; try reflexivity.
  simpl in Hn, Hm. cbn [normalize_price_rec].
  pose proof (price_text_length value) as Hlen.
  set (s := price_text value) in *.
  cbv zeta.
  destruct (startswith 91 s && endswith 93 s); [|reflexivity].
  destruct (Json.loads s) as [parsed|e] eqn:EL; [|reflexivity].
  cbn [bind]. destruct (truthy parsed); [|reflexivity].
  destruct (getitem0 parsed) as [first|e] eqn:EG; [|reflexivity].
  cbn [bind].
  pose proof (loads_first_bound _ _ _ EL EG).
  rewrite (IH m first) by lia. reflexivity.
Qed.

Lemma normalize_price_rec_enough (n : nat) (v : pyval) :
  (nesting_bound v < n)%nat -> normalize_price_rec n v = normalize_price v.
Proof. intros H. apply normalize_price_rec_stable; [exact H|lia]. Qed.

(** The equation of the source. *)
Lemma normalize_price_str (value : pystr) :
  normalize_price (VStr value) =
    let s := price_text value in
    let final :=
      try_except (let! x := py_float (VStr s) in Ret (Some x)) (Ret None) in
    if startswith 91 s && endswith 93 s then
      let body :=
        let! parsed := Json.loads s in
        if truthy parsed then
          let! first := getitem0 parsed in
          let! r := normalize_price first in
          Ret (Some r)
        else Ret None in
      match try_except body (Ret None) with
      | Ret (Some r) => Ret r
      | Ret None => final
      | Raise e => Raise e
      end
    else final.
Proof.
  unfold normalize_price at 1. cbn [normalize_price_rec nesting_bound].
  pose proof (price_text_length value) as Hlen.
  set (s := price_text value) in *. cbv zeta.
  destruct (startswith 91 s && endswith 93 s); [|reflexivity].
  destruct (Json.loads s) as [parsed|e] eqn:EL; [|reflexivity].
  cbn [bind]. destruct (truthy parsed); [|reflexivity].
  destruct (getitem0 parsed) as [first|e] eqn:EG; [|reflexivity].
  cbn [bind].
  pose proof (loads_first_bound _ _ _ EL EG).
  rewrite (normalize_price_rec_enough (length value) first) by lia. reflexivity.
Qed.

Lemma normalize_price_str_returns (value : pystr) :
  returns (normalize_price (VStr value)).
Proof.
  rewrite normalize_price_str. cbv zeta.
  set (s := price_text value).
  assert (Hf : returns (try_except (let! x := py_float (VStr s) in Ret (Some x))
                                   (Ret None))).
  { destruct (py_float (VStr s)); simpl; eexists; reflexivity. }
  destruct (startswith 91 s && endswith 93 s); [|exact Hf].
  match goal with |- returns (match try_except ?b _ with _ => _ end) =>
    destruct b as [[r|]|e] end; simpl; try exact Hf; eexists; reflexivity.
Qed.

(** ** Comparison of floats and the price range *)

Ltac cmp_cases :=
  repeat match goal with
  | |- context [Z.compare ?a ?b] => destruct (Z.compare_spec a b); subst
  | H : context [Z.compare ?a ?b] |- _ => destruct (Z.compare_spec a b); subst
  | |- context [Pos.compare_cont Eq ?a ?b] =>
      change (Pos.compare_cont Eq a b) with (Pos.compare a b);
      destruct (Pos.compare_spec a b); subst
  | H : context [Pos.compare_cont Eq ?a ?b] |- _ =>
      change (Pos.compare_cont Eq a b) with (Pos.compare a b) in H;
      destruct (Pos.compare_spec a b); subst
  end.

Lemma fleb_trans (a p b : float) :
  fleb a p = true -> fleb p b = true -> fleb a b = true.
Proof.
  unfold fleb, SFleb.
  destruct a as [sa|sa| |sa ma ea], p as [sp|sp| |sp mp ep],
           b as [sb|sb| |sb mb eb]; simpl;
    repeat match goal with s : bool |- _ => destruct s end; simpl;
    try discriminate; try reflexivity; intros H1 H2;
    cmp_cases; simpl in *; try discriminate; try reflexivity; try lia.
Qed.

Lemma fleb_not_fgtb (a b : float) : fleb a b = true -> fgtb a b = false.
Proof.
  unfold fleb, fgtb, SFleb. destruct (SFcompare a b) as [[| |]|];
    try discriminate; reflexivity.
Qed.

(** Two floats neither of which is below the other compare alike with
    every third one. *)
Lemma fleb_equal_bounds (a b p : float) :
  fleb b a = true -> fgtb a b = false ->
  fleb a p = fleb b p /\ fleb p a = fleb p b.
Proof.
  unfold fleb, fgtb, SFleb.
  destruct a as [sa|sa| |sa ma ea], b as [sb|sb| |sb mb eb]; simpl;
    repeat match goal with s : bool |- _ => destruct s end; simpl;
    try discriminate; intros H1 H2;
    cmp_cases; simpl in *; try discriminate; try lia;
    split; reflexivity.
Qed.

Lemma ordered_bounds_between (a b p : float) :
  (let '(lo, hi) := ordered_bounds a b in in_closed_interval lo hi p)
  = between a b p.
Proof.
  unfold ordered_bounds, between, in_closed_interval.
  destruct (fgtb a b) eqn:Hba.
  - destruct (fleb a p && fleb p b) eqn:Hab; [|reflexivity].
    apply andb_true_iff in Hab as [H1 H2].
    pose proof (fleb_not_fgtb _ _ (fleb_trans _ _ _ H1 H2)). congruence.
  - destruct (fleb b p && fleb p a) eqn:Hab; [|apply eq_sym, orb_false_r].
    apply andb_true_iff in Hab as [H1 H2].
    destruct (fleb_equal_bounds a b p (fleb_trans _ _ _ H1 H2) Hba) as [E1 E2].
    rewrite E1, H1, <- E2, H2. reflexivity.
Qed.

Lemma between_comm (a b p : float) : between a b p = between b a p.
Proof. unfold between. apply orb_comm. Qed.

Lemma ordered_bounds_swap (a b p : float) :
  (let '(lo, hi) := ordered_bounds a b in in_closed_interval lo hi p)
  = (let '(lo, hi) := ordered_bounds b a in in_closed_interval lo hi p).
Proof. rewrite !ordered_bounds_between. apply between_comm. Qed.

(** The counting loop against the list of the normalised prices. *)
Lemma count_range_loop_spec (lo hi : float) (price_field : pystr)
  (items : list record) : forall count : Z,
  count_range_loop lo hi price_field items count =
    (let! prices := normalized_prices price_field items in
     Ret (count + count_in_interval lo hi prices)).
Proof.
  unfold count_in_interval.
  induction items as [|it rest IH]; intros count; simpl.
  - f_equal. lia.
  - destruct (normalize_price (get it price_field)) as [[p|]|e]; simpl;
      [| |reflexivity].
    + unfold in_closed_interval at 1.
      destruct (fleb lo p && fleb p hi) eqn:E; rewrite IH;
        destruct (normalized_prices price_field rest); simpl;
        try reflexivity; unfold in_closed_interval at 1; rewrite E;
        simpl; f_equal; lia.
    + rewrite IH. destruct (normalized_prices price_field rest); reflexivity.
Qed.

Lemma count_in_interval_ext (lo hi lo' hi' : float) (prices : list float) :
  (forall p, in_closed_interval lo hi p = in_closed_interval lo' hi' p) ->
  count_in_interval lo hi prices = count_in_interval lo' hi' prices.
Proof.
  intros H. unfold count_in_interval. do 2 f_equal.
  induction prices as [|p ps IH]; simpl; [reflexivity|].
  rewrite H, IH. reflexivity.
Qed.

Lemma count_books_in_price_range_spec (items : list record) (a b : float)
  (price_field : pystr) :
  count_books_in_price_range items a b price_field =
    (let! prices := normalized_prices price_field items in
     let '(lo, hi) := ordered_bounds a b in
     Ret (count_in_interval lo hi prices)).
Proof.
  unfold count_books_in_price_range, ordered_bounds.
  destruct (fgtb a b); rewrite count_range_loop_spec; reflexivity.
Qed.

(** C6.  [count_books_in_price_range] gives the same result for the bounds
    in either order, and it counts the records whose normalised price lies
    in the closed interval between the bounds, swapped when the first
    exceeds the second. *)
Theorem price_range_symmetric (items : list record) (a b : float)
  (price_field : pystr) :
  count_books_in_price_range items a b price_field
  = count_books_in_price_range items b a price_field
  /\ count_books_in_price_range items a b price_field =
       (let! prices := normalized_prices price_field items in
        let '(lo, hi) := ordered_bounds a b in
        Ret (count_in_interval lo hi prices)).
Proof.
  split; [|apply count_books_in_price_range_spec].
  rewrite !count_books_in_price_range_spec.
  destruct (normalized_prices price_field items) as [prices|e]; [|reflexivity].
  simpl. pose proof (ordered_bounds_swap a b) as H.
  destruct (ordered_bounds a b) as [lo hi], (ordered_bounds b a) as [lo' hi'].
  f_equal. apply count_in_interval_ext. exact H.
Qed.

(** ** Averages *)

Lemma average_all_loop_spec (price_field : pystr) (items : list record) :
  forall prices : list float,
  average_all_loop price_field items prices =
    (let! ps := normalized_prices price_field items in Ret (prices ++ ps)).
Proof.
  induction items as [|it rest IH]; intros prices; simpl.
  - rewrite app_nil_r. reflexivity.
  - destruct (normalize_price (get it price_field)) as [[p|]|e]; simpl;
      [| |reflexivity]; rewrite IH;
      destruct (normalized_prices price_field rest); simpl;
      rewrite <- ?app_assoc; reflexivity.
Qed.

Lemma average_category_loop_spec (cat price_field : pystr)
  (items : list record) : forall prices : list float,
  average_category_loop cat price_field items prices =
    (let! ps := category_prices cat price_field items in Ret (prices ++ ps)).
Proof.
  induction items as [|it rest IH]; intros prices; simpl.
  - rewrite app_nil_r. reflexivity.
  - destruct (category_matches cat (average_category_value it)) as [[|]|e];
      simpl; [| |reflexivity].
    + destruct (normalize_price (get it price_field)) as [[p|]|e]; simpl;
        [| |reflexivity]; rewrite IH;
        destruct (category_prices cat price_field rest); simpl;
        rewrite <- ?app_assoc; reflexivity.
    + rewrite IH. destruct (category_prices cat price_field rest); reflexivity.
Qed.

Lemma normalized_prices_length (price_field : pystr) (items : list record) :
  forall prices, normalized_prices price_field items = Ret prices ->
  (length prices <= length items)%nat.
Proof.
  induction items as [|it rest IH]; simpl; intros prices H.
  - injection H as <-. simpl. lia.
  - destruct (normalize_price (get it price_field)) as [p|e]; [|discriminate].
    simpl in H.
    destruct (normalized_prices price_field rest) as [ps|e]; [|discriminate].
    simpl in H. injection H as <-. specialize (IH _ eq_refl).
    destruct p; simpl; lia.
Qed.

Lemma category_prices_length (cat price_field : pystr) (items : list record) :
  forall prices, category_prices cat price_field items = Ret prices ->
  (length prices <= length items)%nat.
Proof.
  induction items as [|it rest IH]; simpl; intros prices H.
  - injection H as <-. simpl. lia.
  - destruct (category_matches cat (average_category_value it)) as [m|e];
      [|discriminate]. simpl in H.
    destruct (if m then _ else _) as [p|e]; [|discriminate]. simpl in H.
    destruct (category_prices cat price_field rest) as [ps|e]; [|discriminate].
    simpl in H. injection H as <-. specialize (IH _ eq_refl).
    destruct p; simpl; lia.
Qed.

Lemma sys_maxsize_converts : sys_maxsize < float_overflow_threshold.
Proof. vm_compute. reflexivity. Qed.

(** The average of a list that fits in memory: [None] for the empty list
    and for it alone, the mean otherwise. *)
Lemma average_of_spec (prices : list float) :
  Z.of_nat (length prices) <= sys_maxsize ->
  (average_of prices = Ret None <-> prices = []) /\
  (prices <> [] -> average_of prices = Ret (Some (arithmetic_mean prices))).
Proof.
  intros Hlen. pose proof sys_maxsize_converts as Hmax.
  destruct prices as [|p ps]; [split; [tauto|congruence]|].
  assert (E : average_of (p :: ps) = Ret (Some (arithmetic_mean (p :: ps)))).
  { unfold average_of, truediv_float_int, float_of_int, arithmetic_mean.
    set (n := Z.of_nat (length (p :: ps))) in *.
    assert (0 < n) by (subst n; simpl length; lia).
    destruct (Z.eqb_spec n 0); [lia|].
    destruct (Z.leb_spec float_overflow_threshold (Z.abs n)); [lia|].
    reflexivity. }
  split; [|intros _; exact E].
  rewrite E. split; discriminate.
Qed.

(** C7.  Over records whose prices normalise without raising,
    [average_price_all] and [average_price_in_category] return [None]
    exactly when they collect no price, and otherwise the arithmetic mean of
    the prices they collect. *)
Theorem average_none_iff_no_price (items : list record)
  (category price_field : pystr) :
  Z.of_nat (length items) <= sys_maxsize ->
  (forall prices, normalized_prices price_field items = Ret prices ->
     (average_price_all items price_field = Ret None <-> prices = []) /\
     (prices <> [] ->
      average_price_all items price_field
      = Ret (Some (arithmetic_mean prices)))) /\
  (forall prices,
     category_prices (lower (strip category)) price_field items = Ret prices ->
     (average_price_in_category items category price_field = Ret None
      <-> prices = []) /\
     (prices <> [] ->
      average_price_in_category items category price_field
      = Ret (Some (arithmetic_mean prices)))).
Proof.
  intros Hlen. split; intros prices Hp.
  - unfold average_price_all. rewrite average_all_loop_spec, Hp. simpl.
    apply average_of_spec. apply normalized_prices_length in Hp. lia.
  - unfold average_price_in_category.
    rewrite average_category_loop_spec, Hp. simpl.
    apply average_of_spec. apply category_prices_length in Hp. lia.
Qed.

Lemma average_none_iff_no_price_witness :
  Z.of_nat (length travel_books) <= sys_maxsize /\
  (normalized_prices (str "price") travel_books
     = Ret [float_of_Z 10; float_of_Z 30] /\
   average_price_all travel_books (str "price")
     = Ret (Some (float_of_Z 20))) /\
  (category_prices (lower (strip (str "Mystery"))) (str "price") travel_books
     = Ret [] /\
   average_price_in_category travel_books (str "Mystery") (str "price")
     = Ret None).
Proof.
  assert (H : Z.of_nat (length travel_books) <= sys_maxsize)
    by (vm_compute; discriminate).
  assert (P : normalized_prices (str "price") travel_books
              = Ret [float_of_Z 10; float_of_Z 30]) by (vm_compute; reflexivity).
  assert (Q : category_prices (lower (strip (str "Mystery"))) (str "price")
                travel_books = Ret []) by (vm_compute; reflexivity).
  destruct (average_none_iff_no_price travel_books (str "Mystery") (str "price") H)
    as [A C].
  split; [exact H|]. split; (split; [assumption|]).
  - destruct (A _ P) as [_ M]. rewrite M by discriminate.
    vm_compute. reflexivity.
  - destruct (C _ Q) as [N _]. apply N. reflexivity.
Defined.

(** ** When the operations return *)

Lemma returns_ret {A} (a : A) : returns (Ret a).
Proof. exists a. reflexivity. Qed.

Lemma returns_bind {A B} (m : outcome A) (k : A -> outcome B) :
  returns m -> (forall a, m = Ret a -> returns (k a)) -> returns (bind m k).
Proof. intros [a ->] H. simpl. apply H. reflexivity. Qed.

(** Except on an [int] beyond the floats, [normalize_price] returns. *)
Lemma normalize_price_returns (v : pyval) :
  convertible v -> returns (normalize_price v).
Proof.
  destruct v as [|b|n|x|s|l|l|d]; intros H;
    try (apply returns_ret); [|apply normalize_price_str_returns].
  unfold normalize_price. simpl. unfold float_of_int. simpl in H.
  destruct (Z.leb_spec float_overflow_threshold (Z.abs n)); [lia|].
  apply returns_ret.
Qed.

Lemma category_matches_returns (cat : pystr) (c : pyval) :
  nonempty_sequence c -> returns (category_matches cat c).
Proof.
  destruct c as [|b|n|x|s|[|y l]|[|y l]|d]; simpl; intros H;
    try contradiction; apply returns_ret.
Qed.

Lemma normalized_prices_returns (price_field : pystr) (items : list record) :
  Forall (fun it => convertible (get it price_field)) items ->
  returns (normalized_prices price_field items).
Proof.
  induction 1 as [|it rest Hit _ IH]; simpl; [apply returns_ret|].
  apply returns_bind; [apply normalize_price_returns, Hit|]. intros p _.
  apply returns_bind; [exact IH|]. intros ps _. apply returns_ret.
Qed.

Lemma category_prices_returns (cat price_field : pystr) (items : list record) :
  Forall (fun it => convertible (get it price_field)) items ->
  Forall (fun it => nonempty_sequence (average_category_value it)) items ->
  returns (category_prices cat price_field items).
Proof.
  induction 1 as [|it rest Hit _ IH]; intros Hc; simpl; [apply returns_ret|].
  apply Forall_cons in Hc as [Hc Hrest].
  apply returns_bind; [apply category_matches_returns, Hc|]. intros m _.
  apply returns_bind.
  { destruct m; [apply normalize_price_returns, Hit|apply returns_ret]. }
  intros p _. apply returns_bind; [exact (IH Hrest)|]. intros ps _.
  apply returns_ret.
Qed.

Lemma average_of_returns (prices : list float) :
  Z.of_nat (length prices) <= sys_maxsize -> returns (average_of prices).
Proof.
  intros H. destruct (average_of_spec prices H) as [_ E].
  destruct prices as [|p ps]; [apply returns_ret|].
  rewrite E by discriminate. apply returns_ret.
Qed.

Lemma count_category_loop_returns (cat : pystr) (items : list record) :
  Forall (fun it => nonempty_sequence (count_category_value it)) items ->
  forall count, returns (count_category_loop cat items count).
Proof.
  induction 1 as [|it rest Hit _ IH]; intros count; simpl;
    [apply returns_ret|].
  apply returns_bind; [apply category_matches_returns, Hit|].
  intros m _. apply IH.
Qed.

(** No operation raises on records whose prices are not integers beyond
    the floats and whose category is not an empty list or tuple. *)
Lemma operations_return (items : list record)
  (category price_field : pystr) (a b : float) :
  Z.of_nat (length items) <= sys_maxsize ->
  Forall (fun it => convertible (get it price_field)) items ->
  (Forall (fun it => nonempty_sequence (count_category_value it)) items ->
   returns (count_books_in_category items category)) /\
  returns (average_price_all items price_field) /\
  (Forall (fun it => nonempty_sequence (average_category_value it)) items ->
   returns (average_price_in_category items category price_field)) /\
  returns (count_books_in_price_range items a b price_field).
Proof.
  intros Hlen Hp. repeat split.
  - intros Hc. apply count_category_loop_returns, Hc.
  - unfold average_price_all. rewrite average_all_loop_spec.
    destruct (normalized_prices_returns price_field items Hp) as [ps E].
    rewrite E. simpl. apply average_of_returns.
    apply normalized_prices_length in E. lia.
  - intros Hc. unfold average_price_in_category.
    rewrite average_category_loop_spec.
    destruct (category_prices_returns (lower (strip category)) price_field
                items Hp Hc) as [ps E].
    rewrite E. simpl. apply average_of_returns.
    apply category_prices_length in E. lia.
  - rewrite count_books_in_price_range_spec.
    destruct (normalized_prices_returns price_field items Hp) as [ps E].
    rewrite E. simpl. destruct (ordered_bounds a b). apply returns_ret.
Qed.

(** A falsy value under an alias that is not the last one read is as good
    as absent: the later aliases decide. *)
Lemma falsy_alias_as_absent (it : record) (v : pyval) :
  truthy v = false ->
  (it !! str "category" = Some v ->
   count_category_value (delete (str "category") it) = count_category_value it
   /\ average_category_value (delete (str "category") it)
      = average_category_value it) /\
  (it !! str "Category" = Some v ->
   count_category_value (delete (str "Category") it) = count_category_value it).
Proof.
  intros Hv.
  assert (P : forall x, py_or v x = x) by (intros x; unfold py_or; rewrite Hv; reflexivity).
  assert (Q : forall x y, py_or (py_or x v) y = py_or (py_or x VNone) y).
  { intros x y. unfold py_or. destruct (truthy x); [reflexivity|].
    rewrite Hv. reflexivity. }
  unfold count_category_value, average_category_value, get.
  split; intros E;
    rewrite lookup_delete_eq, !lookup_delete_ne by (vm_compute; discriminate);
    rewrite E; simpl.
  - rewrite !P. split; reflexivity.
  - rewrite Q. reflexivity.
Qed.

(** On a record with a truthy value under [category] or [Category] the two
    category loops read the same value. *)
Lemma category_values_agree (it : record) :
  truthy (average_category_value it) = true ->
  count_category_value it = average_category_value it.
Proof.
  unfold count_category_value, average_category_value. intros H.
  unfold py_or at 1. fold (average_category_value it).
  unfold average_category_value. rewrite H. reflexivity.
Qed.

(** The counting loop against the number of matching records. *)
Lemma count_category_loop_spec (cat : pystr) (items : list record) :
  forall count : Z,
  count_category_loop cat items count =
    (let! n := matching_records cat items in Ret (count + n)).
Proof.
  induction items as [|it rest IH]; intros count; simpl.
  - f_equal. lia.
  - destruct (category_matches cat (count_category_value it)) as [m|e];
      simpl; [|reflexivity].
    rewrite IH. destruct (matching_records cat rest) as [n|e]; simpl;
      [|reflexivity].
    destruct m; f_equal; lia.
Qed.

(** ** The claims on values *)

(** The two constants are the doubles nearest to 51.77 and to 1234.56:
    each is within half a unit in the last place of the decimal. *)
Lemma price_constants_nearest :
  2 * Z.abs (100 * 7285979772155331 - 5177 * 2 ^ 47) <= 100 /\
  2 * Z.abs (100 * 5429652300748554 - 123456 * 2 ^ 42) <= 100.
Proof. vm_compute. split; discriminate. Qed.

(** C1, as the code has it.  [normalize_price] maps "£51.77" and "(£51.77)"
    to 51.77, "1,234.56" to 1234.56, and "abc" and [None] to no value.  It
    maps "['£51.77']" to no value and not to 51.77: [json.loads] rejects
    the single-quoted item, and [float] rejects the brackets.  The same list
    written with double quotes normalises to 51.77. *)
Theorem normalize_price_examples :
  normalize_price (VStr (str "£51.77")) = Ret (Some price_51_77) /\
  normalize_price (VStr (str "(£51.77)")) = Ret (Some price_51_77) /\
  normalize_price (VStr (str "1,234.56")) = Ret (Some price_1234_56) /\
  normalize_price (VStr (str "abc")) = Ret None /\
  normalize_price VNone = Ret None /\
  normalize_price (VStr (str "['£51.77']")) = Ret None /\
  Json.loads (str "['51.77']") = Raise ValueError /\
  normalize_price (VStr ([91; dquote] ++ str "£51.77" ++ [dquote; 93]))
    = Ret (Some price_51_77).
Proof. vm_compute. repeat split. Qed.

(** C5.  On an already-numeric input [x], [normalize_price] returns exactly
    [float(x)], and raises what [float(x)] raises. *)
Theorem normalize_price_numeric (x : pyval) :
  is_numeric x = true ->
  normalize_price x = (let! f := py_float x in Ret (Some f)).
Proof. destruct x; try discriminate; intros _; reflexivity. Qed.

Lemma normalize_price_numeric_witness :
  is_numeric (VInt 20) = true /\
  normalize_price (VInt 20) = Ret (Some (float_of_Z 20)) /\
  normalize_price (VFloat price_51_77) = Ret (Some price_51_77).
Proof.
  split; [reflexivity|]. split.
  - rewrite (normalize_price_numeric (VInt 20)) by reflexivity.
    vm_compute. reflexivity.
  - rewrite (normalize_price_numeric (VFloat price_51_77)) by reflexivity.
    reflexivity.
Defined.

(** C9.  A price [normalize_price] has returned is returned unchanged when
    it is normalised again. *)
Theorem normalize_price_idempotent (v : pyval) (f : float) :
  normalize_price v = Ret (Some f) ->
  normalize_price (VFloat f) = Ret (Some f).
Proof. intros _. reflexivity. Qed.

Lemma normalize_price_idempotent_witness :
  normalize_price (VStr (str "(£51.77)")) = Ret (Some price_51_77) /\
  normalize_price (VFloat price_51_77) = Ret (Some price_51_77).
Proof.
  assert (H : normalize_price (VStr (str "(£51.77)")) = Ret (Some price_51_77))
    by (vm_compute; reflexivity).
  split; [exact H|].
  exact (normalize_price_idempotent (VStr (str "(£51.77)")) price_51_77 H).
Defined.

(** [str.lower()] beyond ASCII: a capital sigma at the end of a word
    lowers to the final sigma, elsewhere to the other one. *)
Example lower_examples :
  lower (str "ČESKÁ") = str "česká" /\
  lower (str "ΟΔΟΣ") = str "οδος" /\
  lower (str "ΑΣ") <> lower (str "ασ") /\
  lower (str "ΣΑΣ") = str "σας" /\
  lower [304] = [105; 775].
Proof. repeat split; vm_compute; (reflexivity || discriminate). Qed.

(** C8.  Two targets that are equal once stripped and lowered give
    [count_books_in_category] the same count on every sequence of
    records. *)
Theorem count_category_target_insensitive (items : list record)
  (target1 target2 : pystr) :
  lower (strip target1) = lower (strip target2) ->
  count_books_in_category items target1 = count_books_in_category items target2.
Proof. unfold count_books_in_category. intros ->. reflexivity. Qed.

Lemma count_category_target_insensitive_witness :
  (lower (strip (str "Travel")) = lower (strip (str " travel ")) /\
   count_books_in_category travel_books (str "Travel")
   = count_books_in_category travel_books (str " travel ")) /\
  (lower (strip (str "Travel")) = lower (strip (str "TRAVEL")) /\
   count_books_in_category travel_books (str "Travel")
   = count_books_in_category travel_books (str "TRAVEL")) /\
  (lower (strip (str " ČESKÁ ΟΔΟΣ")) = lower (strip (str "česká οδος")) /\
   count_books_in_category travel_books (str " ČESKÁ ΟΔΟΣ")
   = count_books_in_category travel_books (str "česká οδος")).
Proof.
  split; [|split]; (split; [vm_compute; reflexivity|]);
    apply count_category_target_insensitive; vm_compute; reflexivity.
Defined.

(** The examples of section 8 of the specification. *)
Example end_to_end :
  average_price_in_category travel_books (str "Travel") (str "price")
    = Ret (Some (float_of_Z 20)) /\
  count_books_in_category travel_books (str "Travel") = Ret 3 /\
  count_books_in_price_range travel_books (float_of_Z 5) (float_of_Z 15)
    (str "price") = Ret 1 /\
  count_books_in_price_range travel_books (float_of_Z 20) (float_of_Z 10)
    (str "price") = Ret 1.
Proof. vm_compute. repeat split. Qed.

(** C2, as the code has it.  [count_books_in_category] reads the category
    under [category_name] as well, [average_price_in_category] does not: a
    record that names its category there only matches in the count and is
    not selected for the average. *)
Theorem category_name_alias_only_counted :
  category_matches (str "travel") (count_category_value named_category_book)
    = Ret true /\
  category_matches (str "travel") (average_category_value named_category_book)
    = Ret false /\
  count_books_in_category [named_category_book] (str "Travel") = Ret 1 /\
  average_price_in_category [named_category_book] (str "Travel") (str "price")
    = Ret None /\
  average_price_all [named_category_book] (str "price")
    = Ret (Some (float_of_Z 10)).
Proof. vm_compute. repeat split. Qed.

(** C3, as the code has it.  On an [int] that no float holds,
    [normalize_price] raises [OverflowError]; the same digits as a string
    normalise to infinity. *)
Theorem normalize_price_huge_int_raises :
  normalize_price (VInt huge_int) = Raise OverflowError /\
  normalize_price (VStr (49 :: repeat 48 400)) = Ret (Some (S754_infinity false)).
Proof. vm_compute. split; reflexivity. Qed.

(** C4, as the code has it.  An empty list under the last category alias
    read makes the category operations raise [IndexError], and an [int]
    price that no float holds makes the price operations raise
    [OverflowError]. *)
Theorem operations_raise :
  average_price_in_category [ {[ str "Category" := VList [] ]} ]
    (str "Travel") (str "price") = Raise IndexError /\
  count_books_in_category [ {[ str "category_name" := VList [] ]} ]
    (str "Travel") = Raise IndexError /\
  average_price_all [ {[ str "price" := VInt huge_int ]} ] (str "price")
    = Raise OverflowError /\
  count_books_in_price_range [ {[ str "price" := VInt huge_int ]} ]
    (float_of_Z 10) (float_of_Z 20) (str "price") = Raise OverflowError.
Proof. vm_compute. repeat split. Qed.

(** C10, as the code has it.  Under the last alias read, a falsy value is
    not treated as absent: the empty list is indexed and raises
    [IndexError], the empty string is compared and matches the empty
    target; a record without the field is skipped. *)
Theorem falsy_last_alias_is_read :
  count_books_in_category [ {[ str "category_name" := VList [] ]} ]
    (str "Travel") = Raise IndexError /\
  count_books_in_category [ (∅ : record) ] (str "Travel") = Ret 0 /\
  average_price_in_category [ {[ str "Category" := VList [] ]} ]
    (str "Travel") (str "price") = Raise IndexError /\
  average_price_in_category [ (∅ : record) ] (str "Travel") (str "price")
    = Ret None /\
  count_books_in_category [ {[ str "category_name" := VStr [] ]} ] (str " ")
    = Ret 1 /\
  count_books_in_category [ (∅ : record) ] (str " ") = Ret 0.
Proof. vm_compute. repeat split. Qed.

(** * Further properties *)

(** ** More on the four operations *)

Lemma count_books_in_category_spec (items : list record) (category : pystr) :
  count_books_in_category items category
  = matching_records (lower (strip category)) items.
Proof.
  unfold count_books_in_category. rewrite count_category_loop_spec.
  destruct (matching_records _ items); reflexivity.
Qed.

Lemma matching_records_bounds (cat : pystr) (items : list record) :
  forall n, matching_records cat items = Ret n ->
  0 <= n <= Z.of_nat (length items).
Proof.
  induction items as [|it rest IH]; simpl; intros n H.
  - injection H as <-. lia.
  - destruct (category_matches cat (count_category_value it)) as [m|e];
      [|discriminate]. simpl in H.
    destruct (matching_records cat rest) as [k|e]; [|discriminate].
    simpl in H. injection H as <-. specialize (IH _ eq_refl).
    destruct m; lia.
Qed.

Lemma count_in_interval_bounds (lo hi : float) (prices : list float) :
  0 <= count_in_interval lo hi prices <= Z.of_nat (length prices).
Proof.
  unfold count_in_interval.
  pose proof (List.filter_length_le (in_closed_interval lo hi) prices). lia.
Qed.

(** X3.  Both counts lie between zero and the number of records. *)
Theorem counts_within_length (items : list record) (category price_field : pystr)
  (a b : float) (n : Z) :
  count_books_in_category items category = Ret n
  \/ count_books_in_price_range items a b price_field = Ret n ->
  0 <= n <= Z.of_nat (length items).
Proof.
  intros [H|H].
  - rewrite count_books_in_category_spec in H.
    exact (matching_records_bounds _ _ _ H).
  - rewrite count_books_in_price_range_spec in H.
    destruct (normalized_prices price_field items) as [prices|e] eqn:E;
      [|discriminate].
    simpl in H. destruct (ordered_bounds a b) as [lo hi]. injection H as <-.
    pose proof (count_in_interval_bounds lo hi prices).
    apply normalized_prices_length in E. lia.
Qed.

Lemma counts_within_length_witness :
  count_books_in_category travel_books (str "Travel") = Ret 3 /\
  0 <= 3 <= Z.of_nat (length travel_books).
Proof.
  assert (H : count_books_in_category travel_books (str "Travel") = Ret 3)
    by (vm_compute; reflexivity).
  split; [exact H|].
  exact (counts_within_length travel_books (str "Travel") (str "price")
           fzero fzero 3 (or_introl H)).
Defined.

Lemma nan_interval_empty (x p : float) :
  in_closed_interval S754_nan x p = false /\
  in_closed_interval x S754_nan p = false.
Proof.
  unfold in_closed_interval, fleb, SFleb. split.
  - reflexivity.
  - apply andb_false_intro2. destruct p; reflexivity.
Qed.

Lemma count_in_interval_none (lo hi : float) (prices : list float) :
  (forall p, in_closed_interval lo hi p = false) ->
  count_in_interval lo hi prices = 0.
Proof.
  intros H. unfold count_in_interval.
  induction prices as [|p ps IH]; simpl; [reflexivity|]. rewrite H. exact IH.
Qed.

(** X4.  With a NaN as either bound, [count_books_in_price_range] counts
    nothing: it returns 0 whenever the prices normalise. *)
Theorem price_range_nan_bound (items : list record) (x : float)
  (price_field : pystr) :
  count_books_in_price_range items S754_nan x price_field
    = (let! _ := normalized_prices price_field items in Ret 0) /\
  count_books_in_price_range items x S754_nan price_field
    = (let! _ := normalized_prices price_field items in Ret 0).
Proof.
  rewrite !count_books_in_price_range_spec.
  destruct (normalized_prices price_field items) as [prices|e];
    [|split; reflexivity].
  simpl. unfold ordered_bounds.
  assert (G1 : fgtb S754_nan x = false) by reflexivity.
  assert (G2 : fgtb x S754_nan = false) by (destruct x; reflexivity).
  rewrite ?G1, ?G2.
  split; f_equal; apply count_in_interval_none; intros p;
    apply nan_interval_empty.
Qed.

Lemma count_in_interval_mono (lo hi lo' hi' : float) (prices : list float) :
  (forall p, in_closed_interval lo hi p = true ->
             in_closed_interval lo' hi' p = true) ->
  count_in_interval lo hi prices <= count_in_interval lo' hi' prices.
Proof.
  intros H. unfold count_in_interval.
  induction prices as [|p ps IH]; simpl; [lia|].
  destruct (in_closed_interval lo hi p) eqn:E.
  - rewrite (H _ E). simpl. lia.
  - destruct (in_closed_interval lo' hi' p); simpl; lia.
Qed.

(** X5.  Widening an interval never lowers the count. *)
Theorem price_range_monotone (items : list record) (lo hi lo' hi' : float)
  (price_field : pystr) (n n' : Z) :
  fleb lo' lo = true -> fleb lo hi = true -> fleb hi hi' = true ->
  count_books_in_price_range items lo hi price_field = Ret n ->
  count_books_in_price_range items lo' hi' price_field = Ret n' ->
  n <= n'.
Proof.
  intros H1 H2 H3.
  pose proof (fleb_trans _ _ _ H1 (fleb_trans _ _ _ H2 H3)) as H4.
  rewrite !count_books_in_price_range_spec. unfold ordered_bounds.
  rewrite (fleb_not_fgtb _ _ H2), (fleb_not_fgtb _ _ H4).
  destruct (normalized_prices price_field items) as [prices|e];
    [|intros; discriminate].
  simpl. intros [= <-] [= <-].
  apply count_in_interval_mono. intros p. unfold in_closed_interval.
  rewrite !andb_true_iff. intros [A B].
  split; [exact (fleb_trans _ _ _ H1 A)|exact (fleb_trans _ _ _ B H3)].
Qed.

Lemma price_range_monotone_witness :
  count_books_in_price_range travel_books (float_of_Z 5) (float_of_Z 15)
    (str "price") = Ret 1 /\
  count_books_in_price_range travel_books (float_of_Z 0) (float_of_Z 40)
    (str "price") = Ret 2 /\
  1 <= 2.
Proof.
  assert (A : count_books_in_price_range travel_books (float_of_Z 5)
                (float_of_Z 15) (str "price") = Ret 1)
    by (vm_compute; reflexivity).
  assert (B : count_books_in_price_range travel_books (float_of_Z 0)
                (float_of_Z 40) (str "price") = Ret 2)
    by (vm_compute; reflexivity).
  split; [exact A|]. split; [exact B|].
  refine (price_range_monotone travel_books (float_of_Z 5) (float_of_Z 15)
            (float_of_Z 0) (float_of_Z 40) (str "price") 1 2 _ _ _ A B);
    vm_compute; reflexivity.
Defined.

(** *** What the operations raise *)

Lemma normalize_price_raise (v : pyval) (e : exn) :
  normalize_price v = Raise e ->
  e = OverflowError /\
  exists n, v = VInt n /\ float_overflow_threshold <= Z.abs n.
Proof.
  intros H.
  destruct v as [|b|n|x|s|l|l|d]; try discriminate.
  - unfold normalize_price in H. simpl in H. unfold float_of_int in H.
    destruct (Z.leb_spec float_overflow_threshold (Z.abs n)); [|discriminate].
    injection H as <-. split; [reflexivity|]. exists n. split; [reflexivity|lia].
  - destruct (normalize_price_str_returns s) as [r E]. congruence.
Qed.

(** X1.  [normalize_price] raises on an [int] beyond the floats, where it raises
    [OverflowError], and on nothing else. *)
Theorem normalize_price_raises_iff (v : pyval) (e : exn) :
  normalize_price v = Raise e <->
  e = OverflowError /\
  exists n, v = VInt n /\ float_overflow_threshold <= Z.abs n.
Proof.
  split; [apply normalize_price_raise|].
  intros (-> & n & -> & Hn).
  unfold normalize_price. simpl. unfold float_of_int.
  destruct (Z.leb_spec float_overflow_threshold (Z.abs n)); [reflexivity|lia].
Qed.

Lemma category_matches_raise (cat : pystr) (c : pyval) (e : exn) :
  category_matches cat c = Raise e -> e = IndexError.
Proof.
  destruct c as [|b|n|x|s|[|y l]|[|y l]|d]; simpl; intros H;
    try discriminate; injection H as <-; reflexivity.
Qed.

(** *** Counting does not depend on the order of the records *)

Lemma matching_records_perm (cat : pystr) (items items' : list record) :
  Permutation items items' ->
  matching_records cat items = matching_records cat items'.
Proof.
  induction 1 as [|x l l' _ IH|x y l|l l' l'' _ IH1 _ IH2]; simpl.
  - reflexivity.
  - rewrite IH. reflexivity.
  - destruct (category_matches cat (count_category_value x)) as [mx|ex] eqn:Ex,
             (category_matches cat (count_category_value y)) as [my|ey] eqn:Ey;
      simpl; try reflexivity.
    + destruct (matching_records cat l) as [n|e]; simpl; [|reflexivity].
      destruct mx, my; f_equal; lia.
    + apply category_matches_raise in Ex, Ey. congruence.
  - congruence.
Qed.

Lemma normalized_prices_perm (price_field : pystr) (items items' : list record) :
  Permutation items items' ->
  same_prices (normalized_prices price_field items)
              (normalized_prices price_field items').
Proof.
  induction 1 as [|x l l' _ IH|x y l|l l' l'' _ IH1 _ IH2]; simpl.
  - constructor.
  - destruct (normalize_price (get x price_field)) as [p|e]; simpl;
      [|reflexivity].
    destruct (normalized_prices price_field l),
             (normalized_prices price_field l'); simpl in *;
      try contradiction; [|exact IH].
    destruct p; [constructor|]; exact IH.
  - destruct (normalize_price (get x price_field)) as [px|ex] eqn:Ex,
             (normalize_price (get y price_field)) as [py|ey] eqn:Ey;
      simpl;
      try (apply normalize_price_raise in Ex as [-> _]);
      try (apply normalize_price_raise in Ey as [-> _]);
      destruct (normalized_prices price_field l) as [ps|e]; simpl;
      try reflexivity;
      repeat match goal with o : option float |- _ => destruct o end;
      try reflexivity; apply perm_swap.
  - destruct (normalized_prices price_field l),
             (normalized_prices price_field l'),
             (normalized_prices price_field l''); simpl in *;
      try contradiction; [etransitivity; eassumption|congruence].
Qed.

Lemma count_in_interval_perm (lo hi : float) (p p' : list float) :
  Permutation p p' -> count_in_interval lo hi p = count_in_interval lo hi p'.
Proof.
  intros H. unfold count_in_interval. f_equal.
  apply Permutation_length.
  induction H; simpl; try constructor; auto.
  - destruct (in_closed_interval lo hi x); [constructor|]; assumption.
  - destruct (in_closed_interval lo hi x), (in_closed_interval lo hi y);
      try reflexivity. apply perm_swap.
  - etransitivity; eassumption.
Qed.

(** X6.  Reordering the records changes neither count, nor whether and what the
    count raises. *)
Theorem counts_permutation_invariant (items items' : list record)
  (category price_field : pystr) (a b : float) :
  Permutation items items' ->
  count_books_in_category items category
    = count_books_in_category items' category /\
  count_books_in_price_range items a b price_field
    = count_books_in_price_range items' a b price_field.
Proof.
  intros H. split.
  - rewrite !count_books_in_category_spec. apply matching_records_perm, H.
  - rewrite !count_books_in_price_range_spec.
    pose proof (normalized_prices_perm price_field _ _ H) as P.
    destruct (normalized_prices price_field items),
             (normalized_prices price_field items'); simpl in *;
      try contradiction; [|congruence].
    destruct (ordered_bounds a b). f_equal.
    apply count_in_interval_perm, P.
Qed.

Lemma counts_permutation_invariant_witness :
  Permutation travel_books (rev travel_books) /\
  count_books_in_category travel_books (str "Travel")
    = count_books_in_category (rev travel_books) (str "Travel").
Proof.
  assert (H : Permutation travel_books (rev travel_books))
    by apply Permutation_rev.
  split; [exact H|].
  exact (proj1 (counts_permutation_invariant travel_books (rev travel_books)
                  (str "Travel") (str "price") fzero fzero H)).
Defined.

(** *** Counting a concatenation *)

Lemma matching_records_app (cat : pystr) (l1 l2 : list record) :
  matching_records cat (l1 ++ l2) =
    (let! n1 := matching_records cat l1 in
     let! n2 := matching_records cat l2 in
     Ret (n1 + n2)).
Proof.
  induction l1 as [|it l1 IH]; simpl.
  - destruct (matching_records cat l2); reflexivity.
  - destruct (category_matches cat (count_category_value it)) as [m|e];
      simpl; [|reflexivity].
    rewrite IH. destruct (matching_records cat l1); simpl; [|reflexivity].
    destruct (matching_records cat l2); simpl; [|reflexivity].
    destruct m; f_equal; lia.
Qed.

Lemma normalized_prices_app (price_field : pystr) (l1 l2 : list record) :
  normalized_prices price_field (l1 ++ l2) =
    (let! p1 := normalized_prices price_field l1 in
     let! p2 := normalized_prices price_field l2 in
     Ret (p1 ++ p2)).
Proof.
  induction l1 as [|it l1 IH]; simpl.
  - destruct (normalized_prices price_field l2); reflexivity.
  - destruct (normalize_price (get it price_field)) as [p|e]; simpl;
      [|reflexivity].
    rewrite IH. destruct (normalized_prices price_field l1); simpl;
      [|reflexivity].
    destruct (normalized_prices price_field l2); simpl; [|reflexivity].
    destruct p; reflexivity.
Qed.

Lemma count_in_interval_app (lo hi : float) (p1 p2 : list float) :
  count_in_interval lo hi (p1 ++ p2)
  = count_in_interval lo hi p1 + count_in_interval lo hi p2.
Proof.
  unfold count_in_interval. rewrite List.filter_app, length_app. lia.
Qed.

(** X7.  The count over two lists of records put end to end is the sum of the
    counts; it raises what the first list raises, else what the second
    does. *)
Theorem counts_of_concatenation (l1 l2 : list record)
  (category price_field : pystr) (a b : float) :
  count_books_in_category (l1 ++ l2) category =
    (let! n1 := count_books_in_category l1 category in
     let! n2 := count_books_in_category l2 category in
     Ret (n1 + n2)) /\
  count_books_in_price_range (l1 ++ l2) a b price_field =
    (let! n1 := count_books_in_price_range l1 a b price_field in
     let! n2 := count_books_in_price_range l2 a b price_field in
     Ret (n1 + n2)).
Proof.
  split.
  - rewrite !count_books_in_category_spec. apply matching_records_app.
  - rewrite !count_books_in_price_range_spec, normalized_prices_app.
    destruct (normalized_prices price_field l1); simpl; [|reflexivity].
    destruct (ordered_bounds a b) as [lo hi].
    destruct (normalized_prices price_field l2); simpl; [|reflexivity].
    rewrite count_in_interval_app. reflexivity.
Qed.

(** *** Records without a price *)

Lemma average_price_all_spec (items : list record) (price_field : pystr) :
  average_price_all items price_field =
    (let! prices := normalized_prices price_field items in average_of prices).
Proof.
  unfold average_price_all. rewrite average_all_loop_spec.
  destruct (normalized_prices price_field items); reflexivity.
Qed.

Lemma average_price_in_category_spec (items : list record)
  (category price_field : pystr) :
  average_price_in_category items category price_field =
    (let! prices :=
       category_prices (lower (strip category)) price_field items in
     average_of prices).
Proof.
  unfold average_price_in_category. rewrite average_category_loop_spec.
  destruct (category_prices _ price_field items); reflexivity.
Qed.

Lemma normalized_prices_skip (price_field : pystr) (l1 l2 : list record)
  (it : record) :
  normalize_price (get it price_field) = Ret None ->
  normalized_prices price_field (l1 ++ it :: l2)
  = normalized_prices price_field (l1 ++ l2).
Proof.
  intros H. rewrite !normalized_prices_app. simpl. rewrite H. simpl.
  destruct (normalized_prices price_field l1); simpl; [|reflexivity].
  destruct (normalized_prices price_field l2); reflexivity.
Qed.

(** X8.  A record whose price does not normalise can be left out: the average
    and the range count are what they are without it. *)
Theorem unpriced_record_ignored (l1 l2 : list record) (it : record)
  (price_field : pystr) (a b : float) :
  normalize_price (get it price_field) = Ret None ->
  average_price_all (l1 ++ it :: l2) price_field
    = average_price_all (l1 ++ l2) price_field /\
  count_books_in_price_range (l1 ++ it :: l2) a b price_field
    = count_books_in_price_range (l1 ++ l2) a b price_field.
Proof.
  intros H.
  rewrite !average_price_all_spec, !count_books_in_price_range_spec,
    (normalized_prices_skip _ _ _ _ H).
  split; reflexivity.
Qed.

Lemma unpriced_record_ignored_witness :
  normalize_price (get (book (VStr (str "bad")) (VStr (str "Travel")))
                       (str "price")) = Ret None /\
  average_price_all travel_books (str "price")
    = average_price_all (firstn 2 travel_books) (str "price").
Proof.
  assert (H : normalize_price
                (get (book (VStr (str "bad")) (VStr (str "Travel")))
                     (str "price")) = Ret None) by (vm_compute; reflexivity).
  split; [exact H|].
  exact (proj1 (unpriced_record_ignored (firstn 2 travel_books) []
                  (book (VStr (str "bad")) (VStr (str "Travel")))
                  (str "price") fzero fzero H)).
Defined.

(** *** The category average as an average over the selected records *)

Lemma category_prices_selected (cat price_field : pystr) (items : list record) :
  forall sel, matching_items cat items = Ret sel ->
  category_prices cat price_field items = normalized_prices price_field sel.
Proof.
  induction items as [|it rest IH]; simpl; intros sel H.
  - injection H as <-. reflexivity.
  - destruct (category_matches cat (average_category_value it)) as [m|e];
      [|discriminate]. simpl in H |- *.
    destruct (matching_items cat rest) as [sel'|e]; [|discriminate].
    simpl in H. injection H as <-. rewrite (IH _ eq_refl).
    destruct m; simpl; [reflexivity|].
    destruct (normalized_prices price_field sel'); reflexivity.
Qed.

(** X9.  When the category test returns on every record,
    [average_price_in_category] is [average_price_all] over the records
    the test selects. *)
Theorem category_average_is_average_of_selection (items sel : list record)
  (category price_field : pystr) :
  matching_items (lower (strip category)) items = Ret sel ->
  average_price_in_category items category price_field
  = average_price_all sel price_field.
Proof.
  intros H.
  rewrite average_price_in_category_spec, average_price_all_spec,
    (category_prices_selected _ _ _ _ H).
  reflexivity.
Qed.

Lemma category_average_is_average_of_selection_witness :
  matching_items (lower (strip (str "Travel")))
    (named_category_book :: travel_books) = Ret travel_books /\
  average_price_in_category (named_category_book :: travel_books)
    (str "Travel") (str "price")
  = average_price_all travel_books (str "price").
Proof.
  assert (H : matching_items (lower (strip (str "Travel")))
                (named_category_book :: travel_books) = Ret travel_books)
    by (vm_compute; reflexivity).
  split; [exact H|].
  exact (category_average_is_average_of_selection
           (named_category_book :: travel_books) travel_books
           (str "Travel") (str "price") H).
Defined.

(** *** Whitespace around a price *)

Lemma lstrip_all_space (pre s : pystr) :
  all_space pre -> lstrip (pre ++ s) = lstrip s.
Proof.
  induction 1 as [|c pre Hc _ IH]; simpl; [reflexivity|].
  rewrite Hc. exact IH.
Qed.

Lemma lstrip_app (s post : pystr) :
  all_space post ->
  lstrip (s ++ post) = match lstrip s with
                       | [] => []
                       | _ :: _ => lstrip s ++ post
                       end.
Proof.
  intros Hp. induction s as [|c s IH]; simpl.
  - rewrite <- (app_nil_r post), lstrip_all_space by assumption. reflexivity.
  - destruct (is_space c); [exact IH|reflexivity].
Qed.

Lemma rstrip_all_space (s post : pystr) :
  all_space post -> rstrip (s ++ post) = rstrip s.
Proof.
  intros Hp. unfold rstrip. rewrite rev_app_distr, lstrip_all_space;
    [reflexivity|].
  apply Forall_rev. exact Hp.
Qed.

Lemma strip_padding (pre s post : pystr) :
  all_space pre -> all_space post -> strip (pre ++ s ++ post) = strip s.
Proof.
  intros Hpre Hpost. unfold strip.
  rewrite lstrip_all_space, lstrip_app by assumption.
  destruct (lstrip s) as [|c t] eqn:E; [reflexivity|].
  apply rstrip_all_space. exact Hpost.
Qed.

Lemma normalize_price_text (v1 v2 : pystr) :
  price_text v1 = price_text v2 ->
  normalize_price (VStr v1) = normalize_price (VStr v2).
Proof. intros H. rewrite !normalize_price_str. cbv zeta. rewrite H. reflexivity. Qed.

(** X2.  Whitespace before and after a price string does not change what it
    normalises to. *)
Theorem normalize_price_ignores_padding (pre s post : pystr) :
  all_space pre -> all_space post ->
  normalize_price (VStr (pre ++ s ++ post)) = normalize_price (VStr s).
Proof.
  intros Hpre Hpost. apply normalize_price_text. unfold price_text.
  rewrite strip_padding by assumption. reflexivity.
Qed.

Lemma normalize_price_ignores_padding_witness :
  all_space (str "  ") /\ all_space [9; 10] /\
  normalize_price (VStr (str "  " ++ str "£51.77" ++ [9; 10]))
    = Ret (Some price_51_77).
Proof.
  assert (A : all_space (str "  ")) by (repeat constructor).
  assert (B : all_space [9; 10]) by (repeat constructor).
  split; [exact A|]. split; [exact B|].
  rewrite (normalize_price_ignores_padding (str "  ") (str "£51.77") [9; 10] A B).
  vm_compute. reflexivity.
Defined.

(** *** Records the operations accept *)

(** X12.  On records whose price is no integer beyond the floats and whose
    category is no empty list or tuple, none of the four operations
    raises. *)
Theorem well_formed_records_never_raise (items : list record)
  (category price_field : pystr) (a b : float) :
  Z.of_nat (length items) <= sys_maxsize ->
  Forall (fun it => convertible (get it price_field)) items ->
  Forall (fun it => nonempty_sequence (count_category_value it)) items ->
  Forall (fun it => nonempty_sequence (average_category_value it)) items ->
  returns (count_books_in_category items category) /\
  returns (average_price_all items price_field) /\
  returns (average_price_in_category items category price_field) /\
  returns (count_books_in_price_range items a b price_field).
Proof.
  intros Hlen Hp Hc Ha.
  destruct (operations_return items category price_field a b Hlen Hp)
    as (H1 & H2 & H3 & H4).
  auto.
Qed.

Lemma well_formed_records_never_raise_witness :
  Z.of_nat (length travel_books) <= sys_maxsize /\
  Forall (fun it => convertible (get it (str "price"))) travel_books /\
  Forall (fun it => nonempty_sequence (count_category_value it)) travel_books /\
  Forall (fun it => nonempty_sequence (average_category_value it)) travel_books /\
  returns (average_price_in_category travel_books (str "Travel") (str "price")).
Proof.
  assert (H0 : Z.of_nat (length travel_books) <= sys_maxsize)
    by (vm_compute; discriminate).
  assert (H1 : Forall (fun it => convertible (get it (str "price"))) travel_books)
    by (repeat constructor).
  assert (H2 : Forall (fun it => nonempty_sequence (count_category_value it))
                 travel_books) by (repeat constructor).
  assert (H3 : Forall (fun it => nonempty_sequence (average_category_value it))
                 travel_books) by (repeat constructor).
  repeat (split; [assumption|]).
  exact (proj1 (proj2 (proj2
    (well_formed_records_never_raise travel_books (str "Travel") (str "price")
       fzero fzero H0 H1 H2 H3)))).
Defined.

(** *** The category aliases *)

Lemma matching_records_ext (cat : pystr) (l1 l2 : list record) (it it' : record) :
  count_category_value it' = count_category_value it ->
  matching_records cat (l1 ++ it' :: l2) = matching_records cat (l1 ++ it :: l2).
Proof.
  intros H. rewrite !matching_records_app. simpl. rewrite H. reflexivity.
Qed.

(** X11.  A falsy value under [category], or under [Category], is as good as
    absent for [count_books_in_category]: the count is what it is with the
    key removed. *)
Theorem falsy_alias_removed_count (l1 l2 : list record) (it : record)
  (key : pystr) (v : pyval) (category : pystr) :
  key = str "category" \/ key = str "Category" ->
  it !! key = Some v -> truthy v = false ->
  count_books_in_category (l1 ++ delete key it :: l2) category
  = count_books_in_category (l1 ++ it :: l2) category.
Proof.
  intros Hk Hit Hv. rewrite !count_books_in_category_spec.
  apply matching_records_ext.
  destruct (falsy_alias_as_absent it v Hv) as [A B].
  destruct Hk as [-> | ->]; [apply (A Hit)|apply (B Hit)].
Qed.

Lemma falsy_alias_removed_count_witness :
  (<[str "category" := VStr []]> named_category_book) !! str "category"
    = Some (VStr []) /\
  count_books_in_category
    [delete (str "category") (<[str "category" := VStr []]> named_category_book)]
    (str "Travel")
  = count_books_in_category
      [<[str "category" := VStr []]> named_category_book] (str "Travel").
Proof.
  assert (H : (<[str "category" := VStr []]> named_category_book)
                !! str "category" = Some (VStr []))
    by apply lookup_insert_eq.
  split; [exact H|].
  exact (falsy_alias_removed_count [] []
           (<[str "category" := VStr []]> named_category_book)
           (str "category") (VStr []) (str "Travel")
           (or_introl eq_refl) H eq_refl).
Defined.

Lemma selection_counts (cat : pystr) (items : list record) :
  Forall (fun it => truthy (average_category_value it) = true) items ->
  matching_records cat items =
    (let! sel := matching_items cat items in Ret (Z.of_nat (length sel))).
Proof.
  induction 1 as [|it rest Hit _ IH]; simpl; [reflexivity|].
  rewrite (category_values_agree it Hit).
  destruct (category_matches cat (average_category_value it)) as [m|e];
    simpl; [|reflexivity].
  rewrite IH. destruct (matching_items cat rest) as [sel|e]; simpl;
    [|reflexivity].
  destruct m; simpl; f_equal; lia.
Qed.

(** X10.  On records that all hold a truthy value under [category] or
    [Category], the records [average_price_in_category] selects are those
    [count_books_in_category] counts. *)
Theorem count_is_size_of_selection (items : list record) (category : pystr) :
  Forall (fun it => truthy (average_category_value it) = true) items ->
  count_books_in_category items category =
    (let! sel := matching_items (lower (strip category)) items in
     Ret (Z.of_nat (length sel))).
Proof.
  intros H. rewrite count_books_in_category_spec. apply selection_counts, H.
Qed.

Lemma count_is_size_of_selection_witness :
  Forall (fun it => truthy (average_category_value it) = true) travel_books /\
  count_books_in_category travel_books (str "Travel") = Ret 3.
Proof.
  assert (H : Forall (fun it => truthy (average_category_value it) = true)
                travel_books) by (repeat constructor).
  split; [exact H|].
  rewrite (count_is_size_of_selection travel_books (str "Travel") H).
  vm_compute. reflexivity.
Defined.

(** ** [load_items] *)

Lemma load_items_csv (fs : filesystem) (path : pystr) :
  is_csv_path path = true ->
  load_items fs path =
    (do! text := fs (remove_char 34 path) in
     do! rows := Csv.dict_reader text in
     Done (map VDict rows)).
Proof. unfold is_csv_path, load_items. intros ->. reflexivity. Qed.

Lemma load_items_jl (fs : filesystem) (path : pystr) :
  is_jl_path path = true ->
  load_items fs path =
    (do! text := fs (remove_char 34 path) in load_lines (text_lines text) []).
Proof.
  unfold is_jl_path, is_csv_path, load_items.
  intros [H1 H2]%andb_true_iff. apply negb_true_iff in H1.
  rewrite H1, H2. reflexivity.
Qed.

Lemma load_items_json (fs : filesystem) (path : pystr) :
  is_csv_path path = false -> is_jl_path path = false ->
  load_items fs path =
    (do! text := fs (remove_char 34 path) in
     do! data := lift (Json.loads text) in
     match data with
     | VList items => Done items
     | _ => Failed (Exn ValueError)
     end).
Proof.
  unfold is_jl_path, is_csv_path, load_items. intros -> H. simpl in H.
  rewrite H. reflexivity.
Qed.

(** *** JSON Lines *)

Lemma lines_from_app (t' t2 : pystr) : forall cur,
  lines_from cur ((t' ++ [10]) ++ t2)
  = lines_from cur (t' ++ [10]) ++ lines_from [] t2.
Proof.
  induction t' as [|c t' IH]; intros cur; simpl.
  - reflexivity.
  - destruct (c =? 10); simpl; rewrite IH; reflexivity.
Qed.

Lemma text_lines_app (t1 t2 : pystr) :
  ends_line t1 -> text_lines (t1 ++ t2) = text_lines t1 ++ text_lines t2.
Proof.
  unfold text_lines. intros [-> | [t' ->]]; [reflexivity|].
  apply lines_from_app.
Qed.

Lemma strip_all_space (s : pystr) : all_space s -> strip s = [].
Proof.
  intros H. unfold strip.
  rewrite <- (app_nil_r s), lstrip_all_space by assumption. reflexivity.
Qed.

Lemma lines_from_all_space (t : pystr) : forall cur,
  all_space cur -> all_space t -> Forall all_space (lines_from cur t).
Proof.
  induction t as [|c t IH]; intros cur Hcur Ht; cbn [lines_from].
  - destruct cur; [constructor|].
    constructor; [|constructor]. apply Forall_rev. exact Hcur.
  - apply Forall_cons in Ht as [Hc Ht].
    assert (Hcc : all_space (c :: cur)) by (constructor; assumption).
    destruct (c =? 10).
    + constructor; [|apply IH; [constructor|exact Ht]].
      apply Forall_rev. exact Hcc.
    + apply IH; [exact Hcc|exact Ht].
Qed.

Lemma load_lines_blank (blank rest : list pystr) (items : list pyval) :
  Forall all_space blank ->
  load_lines (blank ++ rest) items = load_lines rest items.
Proof.
  induction 1 as [|l blank Hl _ IH]; simpl; [reflexivity|].
  rewrite (strip_all_space l Hl). exact IH.
Qed.

Lemma load_lines_insert (l1 blank l2 : list pystr) : forall items,
  Forall all_space blank ->
  load_lines (l1 ++ blank ++ l2) items = load_lines (l1 ++ l2) items.
Proof.
  induction l1 as [|l l1 IH]; intros items Hb; simpl.
  - apply load_lines_blank, Hb.
  - destruct (strip l); [apply IH, Hb|].
    destruct (lift (Json.loads _)); simpl; [apply IH, Hb|reflexivity].
Qed.

(** X14.  In a [.jl] file, lines of whitespace put between two lines change
    nothing of what is loaded. *)
Theorem jl_blank_lines_skipped (fs fs' : filesystem) (path t1 ws t2 : pystr) :
  is_jl_path path = true ->
  ends_line t1 -> ends_line ws -> all_space ws ->
  fs (remove_char 34 path) = Done (t1 ++ ws ++ t2) ->
  fs' (remove_char 34 path) = Done (t1 ++ t2) ->
  load_items fs path = load_items fs' path.
Proof.
  intros Hjl H1 Hw Hs E E'.
  rewrite !load_items_jl, E, E' by assumption. simpl.
  rewrite !text_lines_app by assumption.
  apply load_lines_insert, lines_from_all_space; [constructor|exact Hs].
Qed.

Lemma jl_blank_lines_skipped_witness :
  is_jl_path (str "books.jl") = true /\
  load_items (file (str "books.jl") (str "[1]" ++ [10] ++ [32; 10; 10] ++ str "[2]"))
    (str "books.jl")
  = load_items (file (str "books.jl") (str "[1]" ++ [10] ++ str "[2]"))
      (str "books.jl").
Proof.
  assert (H : is_jl_path (str "books.jl") = true) by (vm_compute; reflexivity).
  split; [exact H|].
  apply (jl_blank_lines_skipped _ _ (str "books.jl") (str "[1]" ++ [10])
           [32; 10; 10] (str "[2]") H).
  - right. exists (str "[1]"). reflexivity.
  - right. exists [32; 10]. reflexivity.
  - repeat constructor.
  - vm_compute. reflexivity.
  - vm_compute. reflexivity.
Defined.

(** *** One JSON document *)

Lemma loads_object (text : pystr) (v : pyval) :
  startswith 123 (Json.skip_ws text) = true ->
  Json.loads text = Ret v -> exists d, v = VDict d.
Proof.
  unfold Json.loads. intros Hs H.
  destruct (startswith 65279 text); [discriminate|].
  destruct (Json.skip_ws text) as [|c r]; [discriminate|].
  simpl in Hs. apply Z.eqb_eq in Hs. subst c.
  cbn [Json.scan_once] in H.
  change (123 =? 34) with false in H. change (123 =? 123) with true in H.
  cbv iota in H.
  destruct (Json.skip_ws r) as [|q r']; [discriminate|].
  destruct (q =? 125).
  - destruct (Json.skip_ws r'); [|discriminate]. injection H as <-. eauto.
  - destruct (q =? 34); [|discriminate].
    destruct (Json.object_items _ r') as [[kvs rest]|]; [|discriminate].
    simpl in H. destruct (Json.skip_ws rest); [|discriminate].
    injection H as <-. eauto.
Qed.

(** X15.  A file that is neither [.csv] nor [.jl] and whose text begins with an
    object, as a JSON Lines file named [.jsonl] does, never loads:
    [load_items] raises, whatever follows the brace.  The exception is
    left open: it is the decoder's or that of line 49. *)
Theorem json_object_file_rejected (fs : filesystem) (path text : pystr) :
  is_csv_path path = false -> is_jl_path path = false ->
  fs (remove_char 34 path) = Done text ->
  startswith 123 (Json.skip_ws text) = true ->
  exists f, load_items fs path = Failed f.
Proof.
  intros Hc Hj E Hs. rewrite load_items_json, E by assumption. simpl.
  destruct (Json.loads text) as [v|e] eqn:L; simpl; [|eauto].
  destruct (loads_object _ _ Hs L) as [d ->]. eauto.
Qed.

Lemma json_object_file_rejected_witness :
  is_csv_path (str "books.jsonl") = false /\
  is_jl_path (str "books.jsonl") = false /\
  exists f,
    load_items (file (str "books.jsonl") (str "{}" ++ [10] ++ str "{}" ++ [10]))
      (str "books.jsonl") = Failed f.
Proof.
  assert (A : is_csv_path (str "books.jsonl") = false) by (vm_compute; reflexivity).
  assert (B : is_jl_path (str "books.jsonl") = false) by (vm_compute; reflexivity).
  split; [exact A|]. split; [exact B|].
  apply (json_object_file_rejected _ (str "books.jsonl")
           (str "{}" ++ [10] ++ str "{}" ++ [10]) A B); vm_compute; reflexivity.
Defined.

(** *** What is in a record read from a CSV file *)

Lemma str_eqb_eq (a b : pystr) : str_eqb a b = true <-> a = b.
Proof.
  revert b. induction a as [|x a IH]; intros [|y b]; simpl;
    try (split; [discriminate|congruence]); [tauto|].
  rewrite andb_true_iff, Z.eqb_eq, IH. split; [intros [-> ->]|intros [= -> ->]]; auto.
Qed.

Lemma dict_set_values (P : pyval -> Prop) (k : pystr) (v : pyval)
  (d : list (pystr * pyval)) :
  P v -> dict_values P d -> dict_values P (dict_set k v d).
Proof.
  intros Hv. induction 1 as [|[k' v'] d Hkv Hd IH]; simpl.
  - repeat constructor. exact Hv.
  - destruct (str_eqb k k'); constructor; auto.
Qed.

Lemma dict_of_pairs_values (P : pyval -> Prop) (pairs : list (pystr * pyval)) :
  dict_values P pairs -> dict_values P (dict_of_pairs pairs).
Proof.
  unfold dict_of_pairs. intros H.
  assert (G : forall d, dict_values P d ->
              dict_values P (fold_left (fun d kv => dict_set (fst kv) (snd kv) d)
                                       pairs d)).
  { induction H as [|kv pairs Hkv _ IH]; intros d Hd; simpl; [exact Hd|].
    apply IH, dict_set_values; assumption. }
  apply G. constructor.
Qed.

Lemma zip_row_values (fieldnames row : list pystr) :
  dict_values csv_value (Csv.zip_row fieldnames row).
Proof.
  revert row. induction fieldnames as [|k ks IH]; intros [|v vs]; simpl;
    constructor; simpl; auto; apply IH.
Qed.

Lemma record_of_dict_values (P : pyval -> Prop) (d : list (pystr * pyval))
  (k : pystr) (v : pyval) :
  dict_values P d -> record_of_dict d !! k = Some v -> P v.
Proof.
  unfold record_of_dict. intros H.
  assert (G : forall m : record,
              (forall v, m !! k = Some v -> P v) ->
              fold_left (fun (m : record) kv => <[fst kv := snd kv]> m) d m !! k
                = Some v -> P v).
  { induction H as [|[k' v'] d Hkv _ IH]; intros m Hm; simpl; [apply Hm|].
    apply IH. intros w. simpl in Hkv.
    destruct (decide (k' = k)) as [->|Hne].
    - rewrite lookup_insert_eq. intros [= <-]. exact Hkv.
    - rewrite lookup_insert_ne by exact Hne. apply Hm. }
  apply G. intros w. rewrite lookup_empty. discriminate.
Qed.

Lemma csv_get (d : list (pystr * pyval)) (key : pystr) :
  dict_values csv_value d -> csv_value (get (record_of_dict d) key).
Proof.
  intros H. unfold get.
  destruct (record_of_dict d !! key) as [v|] eqn:E; simpl; [|exact I].
  exact (record_of_dict_values _ _ _ _ H E).
Qed.

Lemma csv_py_or (a b : pyval) : csv_value a -> csv_value b -> csv_value (py_or a b).
Proof. unfold py_or. destruct (truthy a); auto. Qed.

Lemma csv_value_accepted (v : pyval) :
  csv_value v -> convertible v /\ nonempty_sequence v.
Proof. destruct v; simpl; try contradiction; auto. Qed.

Lemma leading_records_dicts (rows : list (list (pystr * pyval))) :
  leading_records (map VDict rows) = (map record_of_dict rows, true).
Proof.
  induction rows as [|d rows IH]; simpl; [reflexivity|]. rewrite IH. reflexivity.
Qed.

Lemma dict_reader_values (text : pystr) (rows : list (list (pystr * pyval))) :
  Csv.dict_reader text = Done rows -> Forall (dict_values csv_value) rows.
Proof.
  unfold Csv.dict_reader.
  destruct (Csv.rows (text_lines text)) as [[|fieldnames rest]|];
    intros [= <-]; [constructor|].
  apply Forall_map, Forall_forall. intros row _.
  apply dict_of_pairs_values, zip_row_values.
Qed.

Lemma returns_lift {A} (m : outcome A) : returns m -> exists a, lift m = Done a.
Proof. intros [a ->]. exists a. reflexivity. Qed.

Lemma csv_items_safe (fs : filesystem) (path : pystr)
  (items : list pyval) (category price_field : pystr) (a b : float) :
  is_csv_path path = true ->
  load_items fs path = Done items ->
  Z.of_nat (length items) <= sys_maxsize ->
  (exists n, count_books_in_category_on items category = Done n) /\
  (exists r, average_price_all_on items price_field = Done r) /\
  (exists r, average_price_in_category_on items category price_field = Done r) /\
  (exists n, count_books_in_price_range_on items a b price_field = Done n).
Proof.
  intros Hcsv Hload Hlen. rewrite load_items_csv in Hload by exact Hcsv.
  destruct (fs (remove_char 34 path)) as [text|f]; [|discriminate].
  simpl in Hload.
  destruct (Csv.dict_reader text) as [rows|f] eqn:E; [|discriminate].
  simpl in Hload. injection Hload as <-.
  apply dict_reader_values in E. rewrite length_map in Hlen.
  set (rs := map record_of_dict rows).
  assert (Hrs : Z.of_nat (length rs) <= sys_maxsize)
    by (subst rs; rewrite length_map; exact Hlen).
  assert (Hv : Forall (fun it : record => forall key, csv_value (get it key)) rs).
  { subst rs. apply Forall_map. eapply Forall_impl; [exact E|].
    intros d Hd key. apply csv_get, Hd. }
  assert (Hp : Forall (fun it => convertible (get it price_field)) rs).
  { eapply Forall_impl; [exact Hv|]. intros it H. apply csv_value_accepted, H. }
  assert (Hc : Forall (fun it => nonempty_sequence (count_category_value it)) rs).
  { eapply Forall_impl; [exact Hv|]. intros it H.
    apply csv_value_accepted. unfold count_category_value.
    repeat apply csv_py_or; apply H. }
  assert (Ha : Forall (fun it => nonempty_sequence (average_category_value it)) rs).
  { eapply Forall_impl; [exact Hv|]. intros it H.
    apply csv_value_accepted. unfold average_category_value.
    apply csv_py_or; apply H. }
  destruct (operations_return rs category price_field a b Hrs Hp)
    as (H1 & H2 & H3 & H4).
  specialize (H1 Hc). specialize (H3 Ha).
  unfold count_books_in_category_on, average_price_all_on,
    average_price_in_category_on, count_books_in_price_range_on, over_items.
  rewrite !leading_records_dicts. fold rs.
  repeat split.
  - destruct H1 as [n H1]. unfold count_books_in_category in H1.
    rewrite H1. eauto.
  - destruct H2 as [r H2]. unfold average_price_all in H2.
    destruct (average_all_loop price_field rs []); [|discriminate].
    simpl in H2. rewrite H2. eauto.
  - destruct H3 as [r H3]. unfold average_price_in_category in H3.
    destruct (average_category_loop _ price_field rs []); [|discriminate].
    simpl in H3. rewrite H3. eauto.
  - destruct H4 as [n H4]. unfold count_books_in_price_range in H4.
    destruct (fgtb a b); rewrite ?leading_records_dicts; fold rs;
      rewrite H4; eauto.
Qed.

(** X18.  The items of a [.csv] file are records of strings and [None]: on them
    none of the four operations raises. *)
Theorem csv_items_never_raise (fs : filesystem) (path : pystr)
  (items : list pyval) (category price_field : pystr) (a b : float) :
  is_csv_path path = true ->
  load_items fs path = Done items ->
  Z.of_nat (length items) <= sys_maxsize ->
  (exists n, count_books_in_category_on items category = Done n) /\
  (exists r, average_price_all_on items price_field = Done r) /\
  (exists r, average_price_in_category_on items category price_field = Done r) /\
  (exists n, count_books_in_price_range_on items a b price_field = Done n).
Proof. apply csv_items_safe. Qed.

Lemma csv_items_never_raise_witness :
  is_csv_path (str "books.csv") = true /\
  (exists items, load_items (file (str "books.csv") sample_csv) (str "books.csv")
                 = Done items
                 /\ Z.of_nat (length items) <= sys_maxsize
                 /\ exists r, average_price_all_on items (str "price") = Done r).
Proof.
  assert (A : is_csv_path (str "books.csv") = true) by (vm_compute; reflexivity).
  split; [exact A|].
  destruct (load_items (file (str "books.csv") sample_csv) (str "books.csv"))
    as [items|f] eqn:E; [|vm_compute in E; discriminate].
  exists items. split; [reflexivity|].
  assert (L : Z.of_nat (length items) <= sys_maxsize).
  { vm_compute in E. injection E as <-. vm_compute. discriminate. }
  split; [exact L|].
  exact (proj1 (proj2 (csv_items_never_raise _ (str "books.csv") items
                         (str "Travel") (str "price") fzero fzero A E L))).
Defined.

Lemma dict_set_keys (k k' : pystr) (v : pyval) (d : list (pystr * pyval)) :
  In k' (map fst (dict_set k v d)) <-> k' = k \/ In k' (map fst d).
Proof.
  induction d as [|[k0 v0] d IH]; simpl; [intuition congruence|].
  destruct (str_eqb k k0) eqn:E; simpl.
  - apply str_eqb_eq in E. subst k0. intuition congruence.
  - rewrite IH. intuition congruence.
Qed.

Lemma dict_set_NoDup (k : pystr) (v : pyval) (d : list (pystr * pyval)) :
  List.NoDup (map fst d) -> List.NoDup (map fst (dict_set k v d)).
Proof.
  induction d as [|[k0 v0] d IH]; simpl; intros H.
  - constructor; [intros []|constructor].
  - inversion H as [|? ? Hn Hd]; subst.
    destruct (str_eqb k k0) eqn:E; simpl; [constructor; assumption|].
    constructor; [|apply IH; exact Hd].
    rewrite dict_set_keys. intros [->|Hin]; [|exact (Hn Hin)].
    assert (str_eqb k k = true) by (apply str_eqb_eq; reflexivity). congruence.
Qed.

Lemma insert_all_fresh (k : pystr) (v : pyval) (d : list (pystr * pyval)) :
  ~ In k (map fst d) ->
  forall m : record,
    fold_left (fun (m : record) kv => <[fst kv := snd kv]> m) d (<[k := v]> m)
    = <[k := v]> (fold_left (fun (m : record) kv => <[fst kv := snd kv]> m) d m).
Proof.
  induction d as [|[k0 v0] d IH]; simpl; intros Hn m; [reflexivity|].
  rewrite <- IH by tauto. f_equal.
  apply insert_insert_ne. intros ->. tauto.
Qed.

Lemma insert_all_dict_set (k : pystr) (v : pyval) (d : list (pystr * pyval)) :
  List.NoDup (map fst d) ->
  forall m : record,
    fold_left (fun (m : record) kv => <[fst kv := snd kv]> m) (dict_set k v d) m
    = <[k := v]> (fold_left (fun (m : record) kv => <[fst kv := snd kv]> m) d m).
Proof.
  induction d as [|[k0 v0] d IH]; simpl; intros H m; [reflexivity|].
  inversion H as [|? ? Hn Hd]; subst.
  destruct (str_eqb k k0) eqn:E; simpl.
  - apply str_eqb_eq in E. subst k0.
    rewrite !insert_all_fresh by exact Hn. rewrite insert_insert_eq. reflexivity.
  - apply IH. exact Hd.
Qed.

Lemma record_of_dict_of_pairs (pairs : list (pystr * pyval)) :
  record_of_dict (dict_of_pairs pairs) = record_of_dict pairs.
Proof.
  unfold record_of_dict, dict_of_pairs.
  assert (G : forall d, List.NoDup (map fst d) ->
              fold_left (fun (m : record) kv => <[fst kv := snd kv]> m)
                (fold_left (fun d kv => dict_set (fst kv) (snd kv) d) pairs d) ∅
              = fold_left (fun (m : record) kv => <[fst kv := snd kv]> m) pairs
                  (fold_left (fun (m : record) kv => <[fst kv := snd kv]> m) d ∅)).
  { induction pairs as [|[k v] pairs IH]; intros d Hd; simpl; [reflexivity|].
    rewrite IH by (apply dict_set_NoDup; exact Hd).
    rewrite insert_all_dict_set by exact Hd. reflexivity. }
  apply (G []). constructor.
Qed.

Lemma zip_row_cell (fieldnames : list pystr) (key : pystr) :
  forall (row : list pystr) (m : record),
    fold_left (fun (m : record) kv => <[fst kv := snd kv]> m)
      (Csv.zip_row fieldnames row) m !! key
    = match cell fieldnames row key with
      | Some v => Some v
      | None => m !! key
      end.
Proof.
  induction fieldnames as [|k ks IH]; intros row m; [reflexivity|].
  destruct row as [|v vs]; simpl; rewrite IH;
    (destruct (cell ks _ key); [reflexivity|]);
    (destruct (decide (k = key)) as [->|Hne];
       [apply lookup_insert_eq|apply lookup_insert_ne; exact Hne]).
Qed.

Lemma dict_row_cell (fieldnames row : list pystr) (key : pystr) :
  record_of_dict (Csv.dict_row fieldnames row) !! key = cell fieldnames row key.
Proof.
  unfold Csv.dict_row. rewrite record_of_dict_of_pairs.
  unfold record_of_dict. rewrite zip_row_cell.
  destruct (cell fieldnames row key); [reflexivity|apply lookup_empty].
Qed.

(** X17.  A [.csv] file whose first row is [fieldnames] loads as one record
    for each row after it that is not blank, in their order.  Under a
    string key the record holds the field of the row in the last column
    that the first row names so, [None] when the row ends before that
    column, and nothing when the first row has no such name. *)
Theorem csv_records_have_header_keys (fs : filesystem) (path text : pystr)
  (fieldnames : list pystr) (rows : list (list pystr)) :
  is_csv_path path = true ->
  fs (remove_char 34 path) = Done text ->
  header_and_rows text = Some (fieldnames, rows) ->
  exists items,
    load_items fs path = Done items /\
    Forall2 (fun row item =>
               exists d, item = VDict d /\
                 forall key, record_of_dict d !! key = cell fieldnames row key)
            rows items.
Proof.
  intros Hcsv Hfs Hrows. rewrite load_items_csv, Hfs by exact Hcsv. simpl.
  unfold header_and_rows in Hrows. unfold Csv.dict_reader.
  destruct (Csv.rows (text_lines text)) as [[|names rest]|]; try discriminate.
  injection Hrows as -> <-. simpl. eexists. split; [reflexivity|].
  rewrite map_map. apply Forall2_fmap_r, Forall_Forall2_diag, Forall_forall.
  intros row _. eexists. split; [reflexivity|]. apply dict_row_cell.
Qed.

Lemma csv_records_have_header_keys_witness :
  is_csv_path (str "books.csv") = true /\
  header_and_rows sample_csv
  = Some ([str "price"; str "category"],
          [[str "£10.00"; str "Travel"]; [str "oops"]]) /\
  exists items,
    load_items (file (str "books.csv") sample_csv) (str "books.csv") = Done items /\
    Forall2 (fun row item =>
               exists d, item = VDict d /\
                 forall key, record_of_dict d !! key
                             = cell [str "price"; str "category"] row key)
            [[str "£10.00"; str "Travel"]; [str "oops"]] items.
Proof.
  assert (A : is_csv_path (str "books.csv") = true) by (vm_compute; reflexivity).
  assert (B : file (str "books.csv") sample_csv (remove_char 34 (str "books.csv"))
              = Done sample_csv) by (vm_compute; reflexivity).
  assert (C : header_and_rows sample_csv
              = Some ([str "price"; str "category"],
                      [[str "£10.00"; str "Travel"]; [str "oops"]]))
    by (vm_compute; reflexivity).
  split; [exact A|]. split; [exact C|].
  exact (csv_records_have_header_keys _ _ _ _ _ A B C).
Defined.

(** *** Empty files *)

Lemma skip_ws_no_space (s : pystr) :
  match Json.skip_ws s with
  | [] => True
  | c :: _ => Json.is_ws c = false
  end.
Proof.
  induction s as [|c s IH]; [exact I|].
  change (Json.skip_ws (c :: s))
    with (if Json.is_ws c then Json.skip_ws s else c :: s).
  destruct (Json.is_ws c) eqn:E; [exact IH|exact E].
Qed.

Lemma skip_ws_all_space (s : pystr) : all_space s -> all_space (Json.skip_ws s).
Proof.
  induction 1 as [|c s Hc Hs IH]; [constructor|].
  change (Json.skip_ws (c :: s))
    with (if Json.is_ws c then Json.skip_ws s else c :: s).
  destruct (Json.is_ws c); [exact IH|constructor; assumption].
Qed.

Lemma scan_once_space (fuel : nat) (c : Z) (r : pystr) :
  is_space c = true -> Json.scan_once fuel (c :: r) = None.
Proof.
  intros H. destruct fuel as [|fuel]; [reflexivity|].
  unfold is_space in H.
  assert (Hc : c <= 32 \/ 133 <= c) by lia.
  cbn [Json.scan_once].
  destruct (Z.eqb_spec c 34); [lia|]. destruct (Z.eqb_spec c 123); [lia|].
  destruct (Z.eqb_spec c 91); [lia|].
  assert (P : forall x lit, x <> c ->
              Json.strip_prefix (x :: lit) (c :: r) = None).
  { intros x lit Hx.
    change (Json.strip_prefix (x :: lit) (c :: r))
      with (if x =? c then Json.strip_prefix lit r else None).
    destruct (Z.eqb_spec x c); [contradiction|reflexivity]. }
  change (str "null") with (110 :: str "ull").
  change (str "true") with (116 :: str "rue").
  change (str "false") with (102 :: str "alse").
  change (str "NaN") with (78 :: str "aN").
  change (str "Infinity") with (73 :: str "nfinity").
  change (str "-Infinity") with (45 :: str "Infinity").
  rewrite !P by lia.
  assert (M : Json.match_number (c :: r) = None).
  { unfold Json.match_number. destruct (Z.eqb_spec c 45); [lia|].
    unfold is_digit. destruct (Z.leb_spec 48 c), (Z.leb_spec c 57); simpl;
      try reflexivity; lia. }
  rewrite M. reflexivity.
Qed.

Lemma loads_all_space (text : pystr) :
  all_space text -> Json.loads text = Raise ValueError.
Proof.
  intros H. unfold Json.loads.
  destruct (startswith 65279 text); [reflexivity|].
  apply skip_ws_all_space in H.
  destruct (Json.skip_ws text) as [|c r]; [reflexivity|].
  apply Forall_cons in H as [Hc _].
  rewrite (scan_once_space _ c r Hc). reflexivity.
Qed.

(** X16.  A file of nothing but whitespace loads as the empty list when it is a
    [.jl] file and raises [ValueError] when it is taken for one JSON
    document; an empty [.csv] file loads as the empty list. *)
Theorem blank_file_loads (fs : filesystem) (path text : pystr) :
  fs (remove_char 34 path) = Done text -> all_space text ->
  (is_jl_path path = true -> load_items fs path = Done []) /\
  (is_csv_path path = false -> is_jl_path path = false ->
   load_items fs path = Failed (Exn ValueError)) /\
  (is_csv_path path = true -> text = [] -> load_items fs path = Done []).
Proof.
  intros E Hs. repeat split.
  - intros Hj. rewrite load_items_jl, E by exact Hj. simpl.
    rewrite <- (app_nil_r (text_lines text)).
    rewrite load_lines_blank; [reflexivity|].
    apply lines_from_all_space; [constructor|exact Hs].
  - intros Hc Hj. rewrite load_items_json, E by assumption. simpl.
    rewrite (loads_all_space text Hs). reflexivity.
  - intros Hc ->. rewrite load_items_csv, E by exact Hc. reflexivity.
Qed.

Lemma blank_file_loads_witness :
  all_space [32; 10; 9] /\
  load_items (file (str "books.jl") [32; 10; 9]) (str "books.jl") = Done [] /\
  load_items (file (str "books.json") [32; 10; 9]) (str "books.json")
    = Failed (Exn ValueError).
Proof.
  assert (S : all_space [32; 10; 9]) by (repeat constructor).
  split; [exact S|]. split.
  - apply (proj1 (blank_file_loads (file (str "books.jl") [32; 10; 9])
                    (str "books.jl") [32; 10; 9] eq_refl S)).
    vm_compute. reflexivity.
  - apply (proj1 (proj2 (blank_file_loads (file (str "books.json") [32; 10; 9])
                           (str "books.json") [32; 10; 9] eq_refl S)));
      vm_compute; reflexivity.
Defined.

(** ** Items that are not records *)

Lemma leading_records_not_all (items : list pyval) (v : pyval) :
  In v items -> (forall d, v <> VDict d) -> snd (leading_records items) = false.
Proof.
  induction items as [|x items IH]; intros Hin Hv; [contradiction|].
  destruct Hin as [->|Hin].
  - destruct v; try reflexivity. exfalso. eapply Hv. reflexivity.
  - specialize (IH Hin Hv). destruct x; try reflexivity. simpl.
    destruct (leading_records items). exact IH.
Qed.

Lemma over_items_fails {A : Type} {B : Type} (loop : list record -> outcome A)
  (finish : A -> outcome B) (items : list pyval) :
  snd (leading_records items) = false ->
  exists f, over_items loop finish items = Failed f.
Proof.
  unfold over_items. destruct (leading_records items) as [rs all]. simpl.
  intros ->. destruct (loop rs); eauto.
Qed.

(** X19.  [load_items] does not check that the items are objects, and an item
    that is not one makes every operation raise. *)
Theorem non_record_item_fails (items : list pyval) (v : pyval)
  (category price_field : pystr) (a b : float) :
  In v items -> (forall d, v <> VDict d) ->
  (exists f, count_books_in_category_on items category = Failed f) /\
  (exists f, average_price_all_on items price_field = Failed f) /\
  (exists f, average_price_in_category_on items category price_field
             = Failed f) /\
  (exists f, count_books_in_price_range_on items a b price_field = Failed f).
Proof.
  intros Hin Hv. pose proof (leading_records_not_all _ _ Hin Hv) as H.
  unfold count_books_in_category_on, average_price_all_on,
    average_price_in_category_on, count_books_in_price_range_on.
  repeat split; try (apply over_items_fails, H).
  destruct (fgtb a b); apply over_items_fails, H.
Qed.

Lemma non_record_item_fails_witness :
  load_items (file (str "books.jl") (str "{}" ++ [10] ++ str "5"))
    (str "books.jl") = Done [VDict []; VInt 5] /\
  In (VInt 5) [VDict []; VInt 5] /\
  average_price_all_on [VDict []; VInt 5] (str "price") = Failed AttributeError.
Proof.
  split; [vm_compute; reflexivity|].
  assert (H : In (VInt 5) [VDict []; VInt 5]) by (right; left; reflexivity).
  split; [exact H|].
  destruct (non_record_item_fails [VDict []; VInt 5] (VInt 5) (str "x")
              (str "price") fzero fzero H) as (_ & [f E] & _).
  { intros d. discriminate. }
  rewrite E. vm_compute in E. symmetry. exact E.
Defined.

(** ** [main] on a CSV file *)

(** X20.  On a [.csv] file that loads, [main] raises nothing and prints one
    line, or none when no mode is selected by a true argument (an empty
    category). *)
Theorem main_on_csv_prints (fs : filesystem) (args : namespace)
  (items : list pyval) :
  is_csv_path (input args) = true ->
  load_items fs (input args) = Done items ->
  Z.of_nat (length items) <= sys_maxsize ->
  exists lines, main fs args = Done lines /\
                length lines = if mode_selected args then 1%nat else 0%nat.
Proof.
  intros Hcsv Hload Hlen. unfold main, mode_selected. rewrite Hload. simpl.
  destruct (given (count_category args)) as [category|].
  { destruct (csv_items_safe fs _ items category (price_field args)
                fzero fzero Hcsv Hload Hlen) as ([n ->] & _).
    simpl. eauto. }
  destruct (avg_all args).
  { destruct (csv_items_safe fs _ items [] (price_field args)
                fzero fzero Hcsv Hload Hlen) as (_ & [[r|] ->] & _);
      simpl; eauto. }
  destruct (given (avg_category args)) as [category|].
  { destruct (csv_items_safe fs _ items category (price_field args)
                fzero fzero Hcsv Hload Hlen) as (_ & _ & [[r|] ->] & _);
      simpl; eauto. }
  destruct (count_range args) as [[mn mx]|]; [|eauto].
  destruct (float_of_str mn) as [a|e]; [|eauto].
  destruct (float_of_str mx) as [b|e]; [|eauto].
  destruct (csv_items_safe fs _ items [] (price_field args)
              a b Hcsv Hload Hlen) as (_ & _ & _ & [n ->]).
  simpl. eauto.
Qed.

(** ** The interactive menu *)

Lemma settled_ret {A : Type} (a : A) (w : world) : settled w (io_ret a w).
Proof. split; simpl; [reflexivity|discriminate]. Qed.

Lemma settled_write (e : event) (w : world) : settled w (write e w).
Proof. split; simpl; [reflexivity|discriminate]. Qed.

Lemma settled_input (prompt : pystr) (w : world) : settled w (py_input prompt w).
Proof.
  unfold settled, py_input. destruct (stdin w); simpl; split;
    try discriminate; [reflexivity|apply suffix_cons_r; reflexivity].
Qed.

Lemma settled_call {A : Type} (r : result A) (w : world) : settled w (call r w).
Proof.
  unfold settled, call. destruct r; simpl; split; try reflexivity; discriminate.
Qed.

Lemma settled_bind {A : Type} {B : Type} (m : io A) (k : A -> io B) (w : world) :
  settled w (m w) -> (forall a w', settled w' (k a w')) ->
  settled w (io_bind m k w).
Proof.
  unfold settled, io_bind. intros [H1 H2] Hk.
  destruct (m w) as [[a| f |] w']; simpl in *;
    [|split; [exact H1|discriminate]|congruence].
  destruct (Hk a w') as [H3 H4]. split; [|exact H4].
  etransitivity; eassumption.
Qed.

Lemma settled_ask (prompt : pystr) (default : option pystr) (w : world) :
  settled w (ask prompt default w).
Proof.
  unfold ask. destruct default; [|apply settled_input].
  apply settled_bind; [apply settled_input|]. intros. apply settled_ret.
Qed.

Lemma choose_file_turns_ends (fs : filesystem) (turns : nat) : forall w,
  (length (stdin w) < turns)%nat ->
  match choose_file_turns turns fs w with
  | (Returns items, w') =>
      (exists path, In path (stdin w) /\ strip path <> [] /\
                    load_items fs (strip path) = Done items) /\
      suffix (stdin w') (stdin w)
  | (Raises f, w') => f = EOFError /\ stdin w' = []
  | (Unfinished, _) => False
  end.
Proof.
  induction turns as [|turns IH]; intros w Hw; [lia|].
  cbn [choose_file_turns]. unfold io_bind at 1, py_input.
  destruct (stdin w) as [|line rest] eqn:Ein; [split; reflexivity|].
  simpl in Hw.
  destruct (strip line) as [|c s] eqn:Es.
  - unfold io_bind, print, write. cbn [stdin stdout].
    match goal with |- context [choose_file_turns turns fs ?w1] =>
      specialize (IH w1); cbn [stdin] in IH;
      destruct (choose_file_turns turns fs w1) as [[items|f|] w'] end;
      [|apply IH; lia|apply IH; lia].
    destruct IH as [(path & Hin & Hne & Hl) Hsuf]; [lia|].
    split; [|apply suffix_cons_r, Hsuf].
    exists path. split; [right; exact Hin|auto].
  - destruct (load_items fs (c :: s)) as [items|f] eqn:El.
    + unfold io_bind, print, write, io_ret. cbn [stdin stdout].
      split; [|apply suffix_cons_r; reflexivity]. exists line. rewrite Es.
      split; [left; reflexivity|]. split; [discriminate|exact El].
    + unfold io_bind, write. cbn [stdin stdout].
      match goal with |- context [choose_file_turns turns fs ?w1] =>
        specialize (IH w1); cbn [stdin] in IH;
        destruct (choose_file_turns turns fs w1) as [[items|f'|] w'] end;
        [|apply IH; lia|apply IH; lia].
      destruct IH as [(path & Hin & Hne & Hl) Hsuf]; [lia|].
      split; [|apply suffix_cons_r, Hsuf].
      exists path. split; [right; exact Hin|auto].
Qed.

(** X21.  [choose_file] ends by returning the items of a file named on a line it
    read, or by [EOFError] when nothing is left to read; no failure to load
    a file leaves it. *)
Theorem choose_file_ends (fs : filesystem) (w : world) :
  match choose_file fs w with
  | (Returns items, w') =>
      (exists path, In path (stdin w) /\ strip path <> [] /\
                    load_items fs (strip path) = Done items) /\
      suffix (stdin w') (stdin w)
  | (Raises f, w') => f = EOFError /\ stdin w' = []
  | (Unfinished, _) => False
  end.
Proof. apply choose_file_turns_ends. lia. Qed.

Lemma settled_choose_file (fs : filesystem) (w : world) :
  settled w (choose_file fs w).
Proof.
  pose proof (choose_file_turns_ends fs (S (length (stdin w))) w) as H.
  unfold settled, choose_file.
  destruct (choose_file_turns _ fs w) as [[items|f|] w']; simpl.
  - destruct H as [_ H]; [lia|]. split; [exact H|discriminate].
  - destruct H as [_ H]; [lia|]. rewrite H. split; [apply suffix_nil|discriminate].
  - exfalso. apply H. lia.
Qed.

Lemma settled_menu_action (fs : filesystem) (choice : pystr)
  (items : list pyval) (w : world) :
  settled w (menu_action fs choice items w).
Proof.
  unfold menu_action.
  repeat match goal with
  | |- settled _ ((if ?b then _ else _) _) => destruct b
  | |- settled _ ((match ?x with _ => _ end) _) => destruct x
  | |- settled _ (io_bind _ _ _) => apply settled_bind; [|intros ? ?]
  | |- settled _ (io_ret _ _) => apply settled_ret
  | |- settled _ (print _ _) => apply settled_write
  | |- settled _ (py_input _ _) => apply settled_input
  | |- settled _ (ask _ _ _) => apply settled_ask
  | |- settled _ (call _ _) => apply settled_call
  | |- settled _ (choose_file _ _) => apply settled_choose_file
  end.
Qed.




Lemma bind_keeps {A : Type} (P : list pyval -> Prop) (m : io A)
  (k : A -> io (list pyval)) (w : world) :
  (forall a w1, match k a w1 with (Returns x, _) => P x | _ => True end) ->
  match io_bind m k w with (Returns x, _) => P x | _ => True end.
Proof.
  intros H. unfold io_bind. destruct (m w) as [[a|f|] w1]; [apply H|exact I|exact I].
Qed.

(** X23.  Only a reload changes the items the menu works on: after any other
    choice the next turn has the items it had. *)
Theorem analyses_keep_items (fs : filesystem) (choice : pystr)
  (items : list pyval) (w : world) :
  str_eqb choice (str "5") = false ->
  match menu_action fs choice items w with
  | (Returns items', _) => items' = items
  | _ => True
  end.
Proof.
  intros H5. unfold menu_action. rewrite H5.
  repeat match goal with
  | |- match (if ?b then _ else _) _ with _ => _ end => destruct b
  | |- match (match ?x with _ => _ end) _ with _ => _ end => destruct x
  | |- match io_bind _ _ _ with _ => _ end =>
      apply (bind_keeps (fun x => x = items)); intros ? ?
  | |- match io_ret _ _ with _ => _ end => reflexivity
  end.
Qed.

Lemma load_lines_items (lines : list pystr) : forall acc items,
  load_lines lines acc = Done items <->
  exists vs, items = acc ++ vs /\
    Forall2 (fun line v => Json.loads line = Ret v)
      (List.filter (fun line => negb (Nat.eqb (length line) 0))
                   (map strip lines)) vs.
Proof.
  induction lines as [|l lines IH]; intros acc items; simpl.
  - split.
    + intros [= <-]. exists []. rewrite app_nil_r. split; [reflexivity|constructor].
    + intros (vs & -> & H). inversion H. rewrite app_nil_r. reflexivity.
  - destruct (strip l) as [|c s] eqn:E; simpl; [apply IH|].
    destruct (Json.loads (c :: s)) as [v|e] eqn:L; simpl.
    + rewrite IH. split.
      * intros (vs & -> & H). exists (v :: vs). rewrite <- app_assoc.
        split; [reflexivity|]. constructor; assumption.
      * intros (vs & -> & H). inversion H as [|? w ? ws Hw Hrest]; subst.
        assert (w = v) by congruence. subst w.
        exists ws. rewrite <- app_assoc. split; [reflexivity|exact Hrest].
    + split; [discriminate|].
      intros (vs & _ & H). inversion H; congruence.
Qed.

(** X13.  A [.jl] file loads when each of its lines that is not blank is one
    JSON value, and then the items are these values in the order of the
    lines. *)
Theorem jl_items_are_lines (fs : filesystem) (path text : pystr)
  (items : list pyval) :
  is_jl_path path = true ->
  fs (remove_char 34 path) = Done text ->
  (load_items fs path = Done items <->
   Forall2 (fun line v => Json.loads line = Ret v) (item_lines text) items).
Proof.
  intros Hj E. rewrite load_items_jl, E by exact Hj. simpl.
  rewrite load_lines_items. unfold item_lines. simpl.
  split; [intros (vs & -> & H); exact H|intros H; eauto].
Qed.

Lemma jl_items_are_lines_witness :
  is_jl_path (str "books.jl") = true /\
  load_items (file (str "books.jl") (str " [1] " ++ [10; 10] ++ str "null"))
    (str "books.jl") = Done [VList [VInt 1]; VNone].
Proof.
  assert (H : is_jl_path (str "books.jl") = true) by (vm_compute; reflexivity).
  split; [exact H|].
  apply (jl_items_are_lines _ (str "books.jl")
           (str " [1] " ++ [10; 10] ++ str "null") _ H eq_refl).
  replace (item_lines (str " [1] " ++ [10; 10] ++ str "null"))
    with [str "[1]"; str "null"] by (vm_compute; reflexivity).
  repeat constructor; vm_compute; reflexivity.
Defined.

Lemma main_on_csv_prints_witness :
  is_csv_path (input csv_args) = true /\
  main (file (str "books.csv") sample_csv) csv_args
  = Done [str "Count books in category 'Travel': 1"].
Proof.
  assert (A : is_csv_path (input csv_args) = true) by (vm_compute; reflexivity).
  split; [exact A|].
  destruct (load_items (file (str "books.csv") sample_csv) (input csv_args))
    as [items|f] eqn:E; [|vm_compute in E; discriminate].
  assert (L : Z.of_nat (length items) <= sys_maxsize).
  { vm_compute in E. injection E as <-. vm_compute. discriminate. }
  destruct (main_on_csv_prints _ csv_args items A E L) as (lines & M & _).
  rewrite M. vm_compute in M. symmetry. exact M.
Defined.

Lemma analyses_keep_items_witness :
  str_eqb (str "2") (str "5") = false /\
  fst (menu_action (file (str "books.csv") sample_csv) (str "2") [VDict []]
         {| stdin := [str ""]; stdout := [] |})
  = Returns [VDict []].
Proof.
  assert (H : str_eqb (str "2") (str "5") = false) by reflexivity.
  split; [exact H|].
  pose proof (analyses_keep_items (file (str "books.csv") sample_csv) (str "2")
                [VDict []] {| stdin := [str ""]; stdout := [] |} H) as K.
  destruct (menu_action _ _ _ _) as [[items'|f|] w'] eqn:E.
  - simpl. rewrite K. reflexivity.
  - vm_compute in E. discriminate.
  - vm_compute in E. discriminate.
Defined.

(** ** Sessions on clean files *)

Lemma tame_ret {A : Type} (P : A -> Prop) (a : A) (w : world) :
  P a -> tame P (io_ret a w).
Proof. intros H. exact H. Qed.

Lemma tame_write (P : unit -> Prop) (e : event) (w : world) :
  P tt -> tame P (write e w).
Proof. intros H. exact H. Qed.

Lemma tame_input (prompt : pystr) (w : world) :
  tame (fun _ => True) (py_input prompt w).
Proof. unfold tame, py_input. destruct (stdin w); simpl; auto. Qed.

Lemma tame_call {A : Type} (r : result A) (w : world) :
  (exists a, r = Done a) -> tame (fun _ => True) (call r w).
Proof. intros [a ->]. exact I. Qed.

Lemma tame_bind {A : Type} {B : Type} (P : A -> Prop) (Q : B -> Prop)
  (m : io A) (k : A -> io B) (w : world) :
  tame P (m w) -> (forall a w', P a -> tame Q (k a w')) ->
  tame Q (io_bind m k w).
Proof.
  unfold tame, io_bind. intros H Hk.
  destruct (m w) as [[a|f|] w']; simpl in *; [apply (Hk a w' H)|exact H|exact H].
Qed.

Lemma tame_ask (prompt : pystr) (default : option pystr) (w : world) :
  tame (fun _ => True) (ask prompt default w).
Proof.
  unfold ask. destruct default; [|apply tame_input].
  eapply tame_bind; [apply tame_input|]. intros. exact I.
Qed.

Lemma tame_choose_file (fs : filesystem) (w : world) :
  clean fs -> tame accepted (choose_file fs w).
Proof.
  intros Hfs.
  pose proof (choose_file_turns_ends fs (S (length (stdin w))) w) as H.
  unfold tame, choose_file.
  destruct (choose_file_turns _ fs w) as [[items|f|] w']; simpl.
  - destruct H as [(path & _ & _ & Hl) _]; [lia|]. exact (Hfs _ _ Hl).
  - apply H. lia.
  - apply H. lia.
Qed.

Lemma tame_menu_action (fs : filesystem) (choice : pystr)
  (items : list pyval) (w : world) :
  clean fs -> accepted items -> tame accepted (menu_action fs choice items w).
Proof.
  intros Hfs Hacc. unfold menu_action.
  repeat match goal with
  | |- tame _ ((if ?b then _ else _) _) => destruct b
  | |- tame _ ((match ?x with _ => _ end) _) => destruct x
  | |- tame _ (io_bind (match ?x with _ => _ end) _ _) => destruct x
  | |- tame _ (io_bind (call (count_books_in_category_on _ ?c)) _ _) =>
      eapply tame_bind;
      [apply tame_call, (Hacc c [] fzero fzero)|intros ? ? _]
  | |- tame _ (io_bind (call (average_price_all_on _ ?f)) _ _) =>
      eapply tame_bind;
      [apply tame_call, (Hacc [] f fzero fzero)|intros ? ? _]
  | |- tame _ (io_bind (call (average_price_in_category_on _ ?c ?f)) _ _) =>
      eapply tame_bind;
      [apply tame_call, (Hacc c f fzero fzero)|intros ? ? _]
  | |- tame _ (io_bind (call (count_books_in_price_range_on _ ?a ?b ?f)) _ _) =>
      eapply tame_bind;
      [apply tame_call, (Hacc [] f a b)|intros ? ? _]
  | |- tame _ (io_bind (py_input _) _ _) =>
      eapply tame_bind; [apply tame_input|intros ? ? _]
  | |- tame _ (io_bind (ask _ _) _ _) =>
      eapply tame_bind; [apply tame_ask|intros ? ? _]
  | |- tame _ (io_bind (print _) _ _) =>
      eapply tame_bind; [apply (tame_write (fun _ => True)), I|intros ? ? _]
  | |- tame _ (io_ret _ _) => apply tame_ret, Hacc
  | |- tame _ (choose_file _ _) => apply tame_choose_file, Hfs
  end.
Qed.

Lemma tame_menu_turns (fs : filesystem) (turns : nat) :
  clean fs ->
  forall (items : list pyval) (w : world),
  accepted items -> (length (stdin w) < turns)%nat ->
  tame (fun _ => True) (menu_turns turns fs items w).
Proof.
  intros Hfs. induction turns as [|turns IH]; intros items w Hacc Hw; [lia|].
  cbn [menu_turns]. unfold io_bind at 1.
  unfold print_menu, io_bind at 1 2 3 4 5 6, print, write.
  cbn [stdin stdout]. unfold io_bind at 1, py_input. cbn [stdin stdout].
  destruct (stdin w) as [|line rest] eqn:Ein; [reflexivity|].
  simpl in Hw.
  destruct (str_eqb (strip line) (str "0")); [exact I|].
  unfold io_bind.
  match goal with |- context [menu_action fs ?c items ?w1] =>
    pose proof (settled_menu_action fs c items w1) as [S1 S2];
    pose proof (tame_menu_action fs c items w1 Hfs Hacc) as T;
    destruct (menu_action fs c items w1) as [[items'|f|] w'] end;
    simpl in S1, S2; unfold tame in T; simpl in T; [|exact T|exact T].
  pose proof (suffix_length _ _ S1) as L.
  apply IH; [exact T|lia].
Qed.

(** X24.  With files that hold only items the operations accept, a session of
    the menu raises nothing but [EOFError]: it ends with [Goodbye] or by
    running out of typed lines. *)
Theorem clean_session_only_runs_out (fs : filesystem) (typed : list pystr) :
  clean fs ->
  match session fs typed with
  | (Returns _, _) => True
  | (Raises f, _) => f = EOFError
  | (Unfinished, _) => False
  end.
Proof.
  intros Hfs. unfold session, run_menu. unfold io_bind at 1, print, write.
  cbn [stdin stdout]. unfold io_bind.
  match goal with |- context [choose_file fs ?w0] =>
    pose proof (tame_choose_file fs w0 Hfs) as T;
    destruct (choose_file fs w0) as [[items|f|] w1] end;
    unfold tame in T; simpl in T; [|exact T|exact T].
  pose proof (tame_menu_turns fs (S (length (stdin w1))) Hfs items w1 T) as H.
  unfold tame in H.
  destruct (menu_turns _ fs items w1) as [[u|f|] w2]; simpl in H;
    [exact I|apply H; lia|apply H; lia].
Qed.

Lemma only_file_clean (name text : pystr) (items : list pyval) :
  load_items (file name text) name = Done items ->
  remove_char 34 name = name ->
  accepted items -> clean (file name text).
Proof.
  intros Hload Hq Hacc path items' H.
  assert (E : remove_char 34 path = name).
  { unfold load_items, file in H.
    destruct (str_eqb (remove_char 34 path) name) eqn:E;
      [apply str_eqb_eq, E|].
    repeat match type of H with
    | context [if ?b then _ else _] => destruct b
    end; discriminate. }
  assert (L : load_items (file name text) path = load_items (file name text) name).
  { unfold load_items. rewrite Hq, E. reflexivity. }
  rewrite L, Hload in H. injection H as <-. exact Hacc.
Qed.

Lemma clean_session_only_runs_out_witness :
  clean (file (str "books.csv") sample_csv) /\
  fst (session (file (str "books.csv") sample_csv)
         [str "books.csv"; str "3"; str "Travel"; str ""])
  = Raises EOFError.
Proof.
  assert (HC : clean (file (str "books.csv") sample_csv)).
  { destruct (load_items (file (str "books.csv") sample_csv) (str "books.csv"))
      as [items|f] eqn:E; [|vm_compute in E; discriminate].
    apply (only_file_clean _ _ items E); [vm_compute; reflexivity|].
    intros category price_field a b.
    apply (csv_items_safe (file (str "books.csv") sample_csv)
             (str "books.csv") items category price_field a b);
      [vm_compute; reflexivity|exact E|].
    vm_compute in E. injection E as <-. vm_compute. discriminate. }
  split; [exact HC|].
  pose proof (clean_session_only_runs_out (file (str "books.csv") sample_csv)
                [str "books.csv"; str "3"; str "Travel"; str ""] HC) as H.
  destruct (session _ _) as [[u|f|] written] eqn:E.
  - vm_compute in E. discriminate.
  - simpl. rewrite H. reflexivity.
  - contradiction.
Defined.
